(** * GPy.core.gp : the general purpose Gaussian process model

    A shallow embedding of [GPy/core/gp.py] (class [GP]) and the properties
    of its construction, recomputation and prediction methods.

    Layout of the development:
    - scalars and numpy arrays (shape + row-major buffer) with the numpy
      operations the module calls ([np.dot], [.T], [*], [-], [np.sum],
      [reshape], [np.diag]);
    - the collaborating objects (kernel, likelihood, inference method,
      posterior), each an object with its class list, its mutable store and
      its methods;
    - the [GP] object and its methods, written in a state-and-exception
      monad that also records every call made to a collaborator;
    - the formulas of the specification, entry by entry;
    - saving and restoring the model ([_getstate], [_setstate]);
    - concrete models over the integers;
    - the theorems.

    The plotting methods, which only hand their arguments to the
    matplotlib layer, are not part of the embedding. *)

From Stdlib Require Import ZArith QArith_base List Lia Bool.
From stdpp Require Import base gmap strings list fin_maps.

Local Open Scope string_scope.
Local Open Scope list_scope.
Local Open Scope nat_scope.

(** ** Scalars

    The entries of the arrays are numpy floats.  The development is
    parametric in the scalar type and in its arithmetic; no algebraic law is
    assumed of it, so that every generic statement below also holds of
    rounding arithmetic.  The integers instantiate it for concrete
    evaluations (small integers are floats on which [+], [-] and [*] are
    exact). *)

Class Scalar (R : Type) := {
  s_zero : R;
  s_add : R -> R -> R;
  s_sub : R -> R -> R;
  s_mul : R -> R -> R
}.

#[export] Instance Z_Scalar : Scalar Z := {
  s_zero := 0%Z;
  s_add := Z.add;
  s_sub := Z.sub;
  s_mul := Z.mul
}.

(** ** Exceptions and outcomes

    A Python exception is identified by the name of its class. *)

Definition exn := string.

Inductive outcome (A : Type) : Type :=
| Ok (a : A)
| Raise (e : exn).

Arguments Ok {A} a.
Arguments Raise {A} e.

Definition AssertionError : exn := "AssertionError".
Definition AttributeError : exn := "AttributeError".
Definition KeyError : exn := "KeyError".
Definition ValueError : exn := "ValueError".

(** ** Shapes

    Arrays of up to two dimensions: a scalar [()], a vector [(n,)] and a
    matrix [(n, m)]. *)

Inductive shape : Type :=
| Sh0
| Sh1 (n : nat)
| Sh2 (n m : nat).

Definition shape_ndim (s : shape) : nat :=
  match s with Sh0 => 0 | Sh1 _ => 1 | Sh2 _ _ => 2 end.

Definition shape_size (s : shape) : nat :=
  match s with Sh0 => 1 | Sh1 n => n | Sh2 n m => n * m end.

(** Row and column counts of a shape seen as a matrix, the way numpy
    broadcasting pads a shape on the left with ones. *)
Definition shape_rows (s : shape) : nat :=
  match s with Sh0 => 1 | Sh1 _ => 1 | Sh2 n _ => n end.

Definition shape_cols (s : shape) : nat :=
  match s with Sh0 => 1 | Sh1 n => n | Sh2 _ m => m end.

(** One broadcast dimension: equal extents, or one of them is 1. *)
Definition bdim (x y : nat) : option nat :=
  if x =? y then Some x
  else if x =? 1 then Some y
  else if y =? 1 then Some x
  else None.

(** Index into an axis of extent [d] of a broadcast operand. *)
Definition bidx (d i : nat) : nat := if d =? 1 then 0 else i.

Inductive array_class : Type :=
| PlainNdarray
| ObservableArray
| VariationalPosterior.

Section Model.
Context {R : Type} `{!Scalar R}.

(** ** numpy arrays: a shape and a row-major buffer *)

Record ndarray : Type := NdArray {
  shape_of : shape;
  data : list R
}.

Definition ndim (a : ndarray) : nat := shape_ndim (shape_of a).
Definition size (a : ndarray) : nat := shape_size (shape_of a).

Definition item (a : ndarray) (k : nat) : R := nth k (data a) s_zero.
Definition get1 (a : ndarray) (j : nat) : R := item a j.
Definition get2 (a : ndarray) (i j : nat) : R :=
  item a (i * shape_cols (shape_of a) + j).

Definition scalar (x : R) : ndarray := NdArray Sh0 [x].

Definition tab1 (n : nat) (f : nat -> R) : ndarray :=
  NdArray (Sh1 n) (map f (seq 0 n)).

Definition tab2 (n m : nat) (f : nat -> nat -> R) : ndarray :=
  NdArray (Sh2 n m) (flat_map (fun i => map (f i) (seq 0 m)) (seq 0 n)).

(** Sum of [f 0 .. f (n-1)], accumulated from the left. *)
Definition sum_over (n : nat) (f : nat -> R) : R :=
  fold_left (fun acc k => s_add acc (f k)) (seq 0 n) s_zero.

(** [a.T] *)
Definition transpose (a : ndarray) : ndarray :=
  match shape_of a with
  | Sh2 n m => tab2 m n (fun i j => get2 a j i)
  | _ => a
  end.

(** [np.dot(a, b)] *)
Definition np_dot (a b : ndarray) : outcome ndarray :=
  match shape_of a, shape_of b with
  | Sh0, sb => Ok (NdArray sb (map (s_mul (item a 0)) (data b)))
  | sa, Sh0 => Ok (NdArray sa (map (fun x => s_mul x (item b 0)) (data a)))
  | Sh1 n, Sh1 n' =>
      if n =? n'
      then Ok (scalar (sum_over n (fun k => s_mul (get1 a k) (get1 b k))))
      else Raise ValueError
  | Sh2 n k, Sh1 k' =>
      if k =? k'
      then Ok (tab1 n (fun i => sum_over k (fun l => s_mul (get2 a i l) (get1 b l))))
      else Raise ValueError
  | Sh1 k, Sh2 k' m =>
      if k =? k'
      then Ok (tab1 m (fun j => sum_over k (fun l => s_mul (get1 a l) (get2 b l j))))
      else Raise ValueError
  | Sh2 n k, Sh2 k' m =>
      if k =? k'
      then Ok (tab2 n m (fun i j => sum_over k (fun l => s_mul (get2 a i l) (get2 b l j))))
      else Raise ValueError
  end.

(** Elementwise binary operator with numpy broadcasting. *)
Definition broadcast (op : R -> R -> R) (a b : ndarray) : outcome ndarray :=
  let sa := shape_of a in
  let sb := shape_of b in
  match bdim (shape_rows sa) (shape_rows sb), bdim (shape_cols sa) (shape_cols sb) with
  | Some r, Some c =>
      let f i j :=
        op (get2 a (bidx (shape_rows sa) i) (bidx (shape_cols sa) j))
           (get2 b (bidx (shape_rows sb) i) (bidx (shape_cols sb) j)) in
      Ok (match Nat.max (shape_ndim sa) (shape_ndim sb) with
          | 0 => scalar (f 0 0)
          | 1 => tab1 c (f 0)
          | _ => tab2 r c f
          end)
  | _, _ => Raise ValueError
  end.

(** [a * b] and [a - b] *)
Definition np_mul : ndarray -> ndarray -> outcome ndarray := broadcast s_mul.
Definition np_sub : ndarray -> ndarray -> outcome ndarray := broadcast s_sub.

(** [np.sum(a, 0)] *)
Definition np_sum0 (a : ndarray) : outcome ndarray :=
  match shape_of a with
  | Sh2 n m => Ok (tab1 m (fun j => sum_over n (fun i => get2 a i j)))
  | Sh1 n => Ok (scalar (sum_over n (get1 a)))
  | Sh0 => Raise ValueError
  end.

(** [a.reshape(-1, 1)] *)
Definition reshape_col (a : ndarray) : ndarray :=
  NdArray (Sh2 (size a) 1) (data a).

(** [a[:, None]] on a one-dimensional array *)
Definition new_axis_col (a : ndarray) : ndarray :=
  NdArray (Sh2 (size a) 1) (data a).

(** [a.reshape(k, -1)] *)
Definition reshape_rows (k : nat) (a : ndarray) : outcome ndarray :=
  if k =? 0 then Raise ValueError
  else if size a mod k =? 0 then Ok (NdArray (Sh2 k (size a / k)) (data a))
  else Raise ValueError.

(** [a.flatten()] *)
Definition flatten (a : ndarray) : ndarray :=
  NdArray (Sh1 (size a)) (data a).

(** [np.diag(a)] *)
Definition np_diag (a : ndarray) : outcome ndarray :=
  match shape_of a with
  | Sh1 n => Ok (tab2 n n (fun i j => if i =? j then get1 a i else s_zero))
  | Sh2 n m => Ok (tab1 (Nat.min n m) (fun i => get2 a i i))
  | Sh0 => Raise ValueError
  end.

(** ** Python values handed to the model *)

(** An array-like input together with the class it is an instance of
    ([numpy.ndarray], [ObservableArray] or [VariationalPosterior]); [arr]
    is the array whose [ndim] and [shape] the object reports. *)
Record pyarray : Type := PyArray {
  arr_class : array_class;
  arr : ndarray
}.

(** [isinstance(X, (ObservableArray, VariationalPosterior))] *)
Definition is_observable (x : pyarray) : bool :=
  match arr_class x with
  | PlainNdarray => false
  | ObservableArray | VariationalPosterior => true
  end.

(** [ObservableArray(a)] *)
Definition ObservableArray_new (x : pyarray) : pyarray :=
  PyArray ObservableArray (arr x).

(** The metadata dictionary. *)
Definition metadata : Type := gmap string ndarray.

(** [d or {}] for an optional dictionary: [None] and the empty dictionary
    are both falsy. *)
Definition or_empty (d : option metadata) : metadata :=
  match d with
  | None => ∅
  | Some m => if decide (m = ∅) then ∅ else m
  end.

(** ** Collaborators

    The kernel, likelihood, posterior and inference classes live in other
    modules.  An object is its list of classes (for [isinstance]), its
    mutable store, and its methods as functions of the store that return
    the outcome of the call and the store it leaves behind. *)

Definition isinstance (classes : list string) (c : string) : bool :=
  bool_decide (c ∈ classes).

Record Kern : Type := {
  kern_classes : list string;
  kern_input_dim : nat;
  kern_store : list R;
  K : list R -> ndarray -> option pyarray -> outcome ndarray * list R;
  Kdiag : list R -> ndarray -> outcome ndarray * list R;
  update_gradients_full : list R -> ndarray -> pyarray -> outcome unit * list R
}.

Record Likelihood : Type := {
  lik_classes : list string;
  lik_store : list R;
  predictive_values :
    list R -> ndarray -> ndarray -> bool -> option metadata ->
    outcome (ndarray * ndarray) * list R;
  predictive_quantiles :
    list R -> ndarray -> ndarray -> list Q -> option metadata ->
    outcome (list ndarray) * list R;
  samples : list R -> ndarray -> option metadata -> outcome ndarray * list R;
  update_gradients : list R -> ndarray -> outcome unit * list R
}.

Record Posterior : Type := {
  woodbury_inv : ndarray;
  woodbury_vector : ndarray
}.

(** An inference method: its class name and its [inference] routine, taken
    as a function of the objects it is handed. *)
Record InferenceMethod : Type := {
  inf_class : string;
  inference :
    Kern -> pyarray -> Likelihood -> pyarray -> metadata ->
    outcome (Posterior * R * gmap string ndarray)
}.

(** [numpy.random]: the generator state and its sampling routine. *)
Record RandomState : Type := {
  rng_state : nat;
  multivariate_normal :
    nat -> ndarray -> ndarray -> Z -> outcome ndarray * nat
}.

(** ** The GP object

    The attributes assigned by [__init__], and the three assigned only by
    [parameters_changed], which are absent ([None]) until then. *)

Inductive parameter : Type :=
| ParamKern
| ParamLikelihood.

Record GP : Type := {
  name : string;
  X : pyarray;
  num_data : nat;
  input_dim : nat;
  Y : pyarray;
  output_dim : nat;
  Y_metadata : metadata;
  kern : Kern;
  likelihood : Likelihood;
  inference_method : InferenceMethod;
  parameters : list parameter;
  posterior : option Posterior;
  _log_marginal_likelihood : option R;
  grad_dict : option (gmap string ndarray)
}.

(** Calls that leave the module, with their arguments, and lines printed. *)
Inductive event : Type :=
| EvK (Xnew : ndarray) (X2 : option pyarray)
| EvKdiag (Xnew : ndarray)
| EvKernUpdateGradients (dL_dK : ndarray) (Xa : pyarray)
| EvLikUpdateGradients (dL_dthetaL : ndarray)
| EvInference (Xa Ya : pyarray) (meta : metadata)
| EvPredictiveValues (mu var : ndarray) (full_cov : bool) (meta : option metadata)
| EvPredictiveQuantiles (mu var : ndarray) (quantiles : list Q) (meta : option metadata)
| EvSamples (Ysim : ndarray) (meta : option metadata)
| EvMultivariateNormal (mean cov : ndarray) (sz : Z)
| EvPrint (words : list string).

Record state : Type := State {
  self : GP;
  calls : list event;
  np_random : RandomState
}.

(** ** The monad of methods *)

Definition M (A : Type) : Type := state -> outcome A * state.

Definition ret {A} (a : A) : M A := fun st => (Ok a, st).

Definition bind {A B} (m : M A) (k : A -> M B) : M B :=
  fun st =>
    match m st with
    | (Ok a, st') => k a st'
    | (Raise e, st') => (Raise e, st')
    end.

Definition raise {A} (e : exn) : M A := fun st => (Raise e, st).

Definition lift {A} (o : outcome A) : M A := fun st => (o, st).

(** [self.attr] for an attribute assigned by [__init__] *)
Definition getattr {A} (f : GP -> A) : M A := fun st => (Ok (f (self st)), st).

(** [self.attr] for an attribute that may not have been assigned yet *)
Definition getattr_opt {A} (f : GP -> option A) : M A :=
  fun st =>
    match f (self st) with
    | Some a => (Ok a, st)
    | None => (Raise AttributeError, st)
    end.

Definition log (e : event) : M unit :=
  fun st => (Ok tt, State (self st) (calls st ++ [e]) (np_random st)).

Definition set_kern_store (s : list R) (k : Kern) : Kern :=
  {| kern_classes := kern_classes k; kern_input_dim := kern_input_dim k;
     kern_store := s; K := K k; Kdiag := Kdiag k;
     update_gradients_full := update_gradients_full k |}.

Definition set_lik_store (s : list R) (l : Likelihood) : Likelihood :=
  {| lik_classes := lik_classes l; lik_store := s;
     predictive_values := predictive_values l;
     predictive_quantiles := predictive_quantiles l;
     samples := samples l; update_gradients := update_gradients l |}.

Definition set_kern (k : Kern) (g : GP) : GP :=
  {| name := name g; X := X g; num_data := num_data g; input_dim := input_dim g;
     Y := Y g; output_dim := output_dim g; Y_metadata := Y_metadata g;
     kern := k; likelihood := likelihood g;
     inference_method := inference_method g; parameters := parameters g;
     posterior := posterior g;
     _log_marginal_likelihood := _log_marginal_likelihood g;
     grad_dict := grad_dict g |}.

Definition set_likelihood (l : Likelihood) (g : GP) : GP :=
  {| name := name g; X := X g; num_data := num_data g; input_dim := input_dim g;
     Y := Y g; output_dim := output_dim g; Y_metadata := Y_metadata g;
     kern := kern g; likelihood := l;
     inference_method := inference_method g; parameters := parameters g;
     posterior := posterior g;
     _log_marginal_likelihood := _log_marginal_likelihood g;
     grad_dict := grad_dict g |}.

Definition set_Y_metadata (md : metadata) (g : GP) : GP :=
  {| name := name g; X := X g; num_data := num_data g; input_dim := input_dim g;
     Y := Y g; output_dim := output_dim g; Y_metadata := md;
     kern := kern g; likelihood := likelihood g;
     inference_method := inference_method g; parameters := parameters g;
     posterior := posterior g;
     _log_marginal_likelihood := _log_marginal_likelihood g;
     grad_dict := grad_dict g |}.

(** [self.posterior, self._log_marginal_likelihood, self.grad_dict = ...] *)
Definition set_inferred (p : Posterior) (lml : R) (gd : gmap string ndarray)
    (g : GP) : GP :=
  {| name := name g; X := X g; num_data := num_data g; input_dim := input_dim g;
     Y := Y g; output_dim := output_dim g; Y_metadata := Y_metadata g;
     kern := kern g; likelihood := likelihood g;
     inference_method := inference_method g; parameters := parameters g;
     posterior := Some p;
     _log_marginal_likelihood := Some lml;
     grad_dict := Some gd |}.

Definition modify_self (f : GP -> GP) : M unit :=
  fun st => (Ok tt, State (f (self st)) (calls st) (np_random st)).

(** A method call on [self.kern]: the call is recorded, the method runs on
    the kernel's store, and the store it leaves is the kernel's new one. *)
Definition call_kern {A} (e : event)
    (f : Kern -> list R -> outcome A * list R) : M A :=
  fun st =>
    let k := kern (self st) in
    let '(r, s') := f k (kern_store k) in
    (r, State (set_kern (set_kern_store s' k) (self st))
              (calls st ++ [e]) (np_random st)).

(** The same on [self.likelihood]. *)
Definition call_likelihood {A} (e : event)
    (f : Likelihood -> list R -> outcome A * list R) : M A :=
  fun st =>
    let l := likelihood (self st) in
    let '(r, s') := f l (lik_store l) in
    (r, State (set_likelihood (set_lik_store s' l) (self st))
              (calls st ++ [e]) (np_random st)).

(** [np.random.multivariate_normal(mean, cov, size)] *)
Definition call_multivariate_normal (mean cov : ndarray) (sz : Z) : M ndarray :=
  fun st =>
    let g := np_random st in
    let '(r, s') := multivariate_normal g (rng_state g) mean cov sz in
    (r, State (self st) (calls st ++ [EvMultivariateNormal mean cov sz])
              {| rng_state := s'; multivariate_normal := multivariate_normal g |}).

(** [d[key]] *)
Definition getitem (d : gmap string ndarray) (key : string) : M ndarray :=
  match d !! key with
  | Some v => ret v
  | None => raise KeyError
  end.
End Model.

Arguments ndarray R : clear implicits.
Arguments pyarray R : clear implicits.
Arguments metadata R : clear implicits.
Arguments Kern R : clear implicits.
Arguments Likelihood R : clear implicits.
Arguments Posterior R : clear implicits.
Arguments InferenceMethod R : clear implicits.
Arguments RandomState R : clear implicits.
Arguments GP R : clear implicits.
Arguments event R : clear implicits.
Arguments state R : clear implicits.
Arguments M R A : clear implicits.

Declare Scope py_scope.
Delimit Scope py_scope with py.
Notation "x <~ m ;; k" := (bind m (fun x => k))
  (at level 100, m at next level, right associativity) : py_scope.
Notation "m ;;; k" := (bind m (fun _ => k))
  (at level 100, right associativity) : py_scope.

Section Methods.
Context {R : Type} `{!Scalar R}.
Local Open Scope py_scope.

(** The [inference] methods of the two strategy classes that [__init__]
    instantiates by default; the classes themselves are defined in
    [GPy.inference.latent_function_inference]. *)
Variable exact_gaussian_inference :
  Kern R -> pyarray R -> Likelihood R -> pyarray R -> metadata R ->
  outcome (Posterior R * R * gmap string (ndarray R)).
Variable expectation_propagation :
  Kern R -> pyarray R -> Likelihood R -> pyarray R -> metadata R ->
  outcome (Posterior R * R * gmap string (ndarray R)).

(** [exact_gaussian_inference.ExactGaussianInference()] *)
Definition ExactGaussianInference : InferenceMethod R :=
  {| inf_class := "ExactGaussianInference";
     inference := exact_gaussian_inference |}.

(** [expectation_propagation.EP()] *)
Definition EP : InferenceMethod R :=
  {| inf_class := "EP"; inference := expectation_propagation |}.

(** *** [GP.__init__] *)

(** [assert b] followed by the rest of the constructor. *)
Definition assert_ {A} (b : bool) (k : outcome A * list (event R))
    : outcome A * list (event R) :=
  if b then k else (Raise AssertionError, []).

(** [n, m = s] for a shape tuple [s]. *)
Definition unpack2 {A} (s : shape) (k : nat -> nat -> outcome A * list (event R))
    : outcome A * list (event R) :=
  match s with
  | Sh2 n m => k n m
  | _ => (Raise ValueError, [])
  end.

(** [s[0]] for a shape tuple [s]. *)
Definition shape0 {A} (s : shape) (k : nat -> outcome A * list (event R))
    : outcome A * list (event R) :=
  match s with
  | Sh0 => (Raise "IndexError", [])
  | Sh1 n => k n
  | Sh2 n _ => k n
  end.

(** The default inference method and what the constructor prints when
    choosing it. *)
Definition default_inference (lik : Likelihood R)
    : InferenceMethod R * list (event R) :=
  if isinstance (lik_classes lik) "Gaussian"
     || isinstance (lik_classes lik) "MixedNoise"
  then (ExactGaussianInference, [])
  else (EP, [EvPrint ["defaulting to "; inf_class EP;
                      "for latent function inference"]]).

Definition __init__ (Xa Ya : pyarray R) (kernel : Kern R)
    (lik : Likelihood R) (inference_method_arg : option (InferenceMethod R))
    (name_arg : string) (Y_metadata_arg : option (metadata R))
    : outcome (GP R) * list (event R) :=
  assert_ (ndim (arr Xa) =? 2) (
  let self_X := if is_observable Xa then Xa else ObservableArray_new Xa in
  unpack2 (shape_of (arr self_X)) (fun self_num_data self_input_dim =>
  assert_ (ndim (arr Ya) =? 2) (
  let self_Y := ObservableArray_new Ya in
  shape0 (shape_of (arr Ya)) (fun Y_rows =>
  assert_ (Y_rows =? self_num_data) (
  unpack2 (shape_of (arr self_Y)) (fun _ self_output_dim =>
  let self_Y_metadata := or_empty Y_metadata_arg in
  assert_ (isinstance (kern_classes kernel) "Kern") (
  (* assert self.input_dim == kernel.input_dim   is commented out *)
  assert_ (isinstance (lik_classes lik) "Likelihood") (
  let '(im, printed) :=
    match inference_method_arg with
    | None => default_inference lik
    | Some im => (im, [])
    end in
  (Ok {| name := name_arg;
         X := self_X;
         num_data := self_num_data;
         input_dim := self_input_dim;
         Y := self_Y;
         output_dim := self_output_dim;
         Y_metadata := self_Y_metadata;
         kern := kernel;
         likelihood := lik;
         inference_method := im;
         parameters := [ParamKern; ParamLikelihood];
         posterior := None;
         _log_marginal_likelihood := None;
         grad_dict := None |},
   printed))))))))).

(** *** [GP.parameters_changed] *)
Definition parameters_changed : M R unit :=
  im <~ getattr inference_method ;;
  k <~ getattr kern ;;
  x <~ getattr X ;;
  l <~ getattr likelihood ;;
  y <~ getattr Y ;;
  md <~ getattr Y_metadata ;;
  log (EvInference x y md) ;;;
  r <~ lift (inference im k x l y md) ;;
  let '(p, lml, gd) := r in
  modify_self (set_inferred p lml gd) ;;;
  gd1 <~ getattr_opt grad_dict ;;
  dL_dthetaL <~ getitem gd1 "dL_dthetaL" ;;
  call_likelihood (EvLikUpdateGradients dL_dthetaL)
                  (fun l s => update_gradients l s dL_dthetaL) ;;;
  gd2 <~ getattr_opt grad_dict ;;
  dL_dK <~ getitem gd2 "dL_dK" ;;
  x' <~ getattr X ;;
  call_kern (EvKernUpdateGradients dL_dK x')
            (fun k s => update_gradients_full k s dL_dK x').

(** *** [GP.log_likelihood] *)
Definition log_likelihood : M R R :=
  getattr_opt _log_marginal_likelihood.

(** *** [GP._raw_predict] *)
Definition _raw_predict (_Xnew : ndarray R) (full_cov : bool)
    : M R (ndarray R * ndarray R) :=
  x <~ getattr X ;;
  KxT <~ call_kern (EvK _Xnew (Some x)) (fun k s => K k s _Xnew (Some x)) ;;
  let Kx := transpose KxT in
  post <~ getattr_opt posterior ;;
  WiKx <~ lift (np_dot (woodbury_inv post) Kx) ;;
  post' <~ getattr_opt posterior ;;
  mu <~ lift (np_dot (transpose Kx) (woodbury_vector post')) ;;
  var <~ (if full_cov then
            Kxx <~ call_kern (EvK _Xnew None) (fun k s => K k s _Xnew None) ;;
            lift (np_dot (transpose Kx) WiKx)
          else
            Kxx <~ call_kern (EvKdiag _Xnew) (fun k s => Kdiag k s _Xnew) ;;
            prod <~ lift (np_mul WiKx Kx) ;;
            red <~ lift (np_sum0 prod) ;;
            var <~ lift (np_sub Kxx red) ;;
            ret (reshape_col var)) ;;
  let mu := if ndim mu =? 1 then new_axis_col mu else mu in
  ret (mu, var).

(** *** [GP.predict] *)
Definition predict (Xnew : ndarray R) (full_cov : bool)
    (Y_metadata_arg : option (metadata R)) : M R (ndarray R * ndarray R) :=
  r <~ _raw_predict Xnew full_cov ;;
  let '(mu, var) := r in
  r' <~ call_likelihood (EvPredictiveValues mu var full_cov Y_metadata_arg)
          (fun l s => predictive_values l s mu var full_cov Y_metadata_arg) ;;
  let '(mean, var') := r' in
  ret (mean, var').

(** *** [GP.predict_quantiles] *)
Definition predict_quantiles (Xa : ndarray R) (quantiles : list Q)
    (Y_metadata_arg : option (metadata R)) : M R (list (ndarray R)) :=
  r <~ _raw_predict Xa false ;;
  let '(m, v) := r in
  call_likelihood (EvPredictiveQuantiles m v quantiles Y_metadata_arg)
    (fun l s => predictive_quantiles l s m v quantiles Y_metadata_arg).

(** *** [GP.posterior_samples_f] *)
Definition posterior_samples_f (Xa : ndarray R) (sz : Z) (full_cov : bool)
    : M R (ndarray R) :=
  r <~ _raw_predict Xa full_cov ;;
  let '(m, v) := r in
  v <~ (if ndim v =? 3 then lift (reshape_rows (size m) v) else ret v) ;;
  if negb full_cov then
    d <~ lift (np_diag (flatten v)) ;;
    Ysim <~ call_multivariate_normal (flatten m) d sz ;;
    ret (transpose Ysim)
  else
    Ysim <~ call_multivariate_normal (flatten m) v sz ;;
    ret (transpose Ysim).

(** *** [GP.posterior_samples] *)
Definition posterior_samples (Xa : ndarray R) (sz : Z) (full_cov : bool)
    (Y_metadata_arg : option (metadata R)) : M R (ndarray R) :=
  Ysim <~ posterior_samples_f Xa sz full_cov ;;
  call_likelihood (EvSamples Ysim Y_metadata_arg)
    (fun l s => samples l s Ysim Y_metadata_arg).

(** The calls with their optional arguments omitted:
    [predict(Xnew)], [predict_quantiles(X)], [posterior_samples(X)]. *)
Definition predict_defaults (Xnew : ndarray R) : M R (ndarray R * ndarray R) :=
  predict Xnew false None.

Definition predict_quantiles_defaults (Xa : ndarray R) : M R (list (ndarray R)) :=
  predict_quantiles Xa [(5 # 2)%Q; (195 # 2)%Q] None.

Definition posterior_samples_defaults (Xa : ndarray R) : M R (ndarray R) :=
  posterior_samples Xa 10%Z false None.
End Methods.

(** ** The formulas of the specification

    Written from the specification's sentences, entry by entry, for new
    inputs [Xs], in terms of
    [Ks = K(Xs,X)] (M×N), [Kss = K(Xs,Xs)] (M×M), [Kd] the diagonal of
    [Kss] (length M), [Wi = woodbury_inv] (N×N) and the woodbury vector
    (N×P, or a flat vector of length N). *)

Section Specification.
Context {R : Type} `{!Scalar R}.

Definition wv_cols (wv : ndarray R) : nat :=
  match shape_of wv with Sh2 _ p => p | _ => 1 end.

Definition wv_entry (wv : ndarray R) (k p : nat) : R :=
  match shape_of wv with Sh2 _ _ => get2 wv k p | _ => get1 wv k end.

(** [mean(Xs) = K(Xs,X) · woodbury_vector], a column (M×P) *)
Definition spec_mean (M N : nat) (Ks wv : ndarray R) : ndarray R :=
  tab2 M (wv_cols wv)
    (fun i p => sum_over N (fun k => s_mul (get2 Ks i k) (wv_entry wv k p))).

(** The entry [(j, i)] of [WiKx = woodbury_inv · Kx] with [Kx = K(Xs,X)ᵗ] *)
Definition spec_WiKx (N : nat) (Wi Ks : ndarray R) (j i : nat) : R :=
  sum_over N (fun k => s_mul (get2 Wi j k) (get2 Ks i k)).

(** [Σ(WiKx ⊙ Kx, axis=0)] at the new point [i] *)
Definition spec_reduction_diag (N : nat) (Wi Ks : ndarray R) (i : nat) : R :=
  sum_over N (fun j => s_mul (spec_WiKx N Wi Ks j i) (get2 Ks i j)).

(** [K(Xs,X)·woodbury_inv·K(X,Xs)] at the pair of new points [(i, j)] *)
Definition spec_reduction_full (N : nat) (Wi Ks : ndarray R) (i j : nat) : R :=
  sum_over N (fun a => s_mul (get2 Ks i a) (spec_WiKx N Wi Ks a j)).

(** [var = covariance_diagonal(Xs) − Σ(WiKx ⊙ Kx, axis=0)], reshaped M×1 *)
Definition spec_var_diag (M N : nat) (Kd Wi Ks : ndarray R) : ndarray R :=
  tab2 M 1 (fun i _ => s_sub (get1 Kd i) (spec_reduction_diag N Wi Ks i)).

(** [var(Xs) = K(Xs,Xs) − K(Xs,X)·woodbury_inv·K(X,Xs)], M×M *)
Definition spec_var_full (M N : nat) (Kss Wi Ks : ndarray R) : ndarray R :=
  tab2 M M (fun i j => s_sub (get2 Kss i j) (spec_reduction_full N Wi Ks i j)).

(** The variance-reduction term alone, M×M *)
Definition reduction_full (M N : nat) (Wi Ks : ndarray R) : ndarray R :=
  tab2 M M (spec_reduction_full N Wi Ks).

(** The diagonal of a square matrix as a column *)
Definition diag_col (M : nat) (v : ndarray R) : ndarray R :=
  tab2 M 1 (fun i _ => get2 v i i).

(** What [np.dot(woodbury_inv, Kx)] evaluates to on an N×N and an N×M
    matrix, with [Kx = Ks.T]. *)
Definition WiKx_of (M N : nat) (Wi Ks : ndarray R) : ndarray R :=
  tab2 N M (fun j i =>
    sum_over N (fun l => s_mul (get2 Wi j l) (get2 (transpose Ks) l i))).

(** Collaborators whose query methods leave their store as they found it. *)
Definition kern_queries_pure (k : Kern R) : Prop :=
  (forall s A B, snd (K k s A B) = s) /\ (forall s A, snd (Kdiag k s A) = s).

Definition predictive_values_pure (l : Likelihood R) : Prop :=
  forall s mu var fc md, snd (predictive_values l s mu var fc md) = s.

(** The metadata an event hands to the likelihood, if it is a call of one
    of its predictive, quantile or sampling routines. *)
Definition likelihood_metadata (e : event R) : option (option (metadata R)) :=
  match e with
  | EvPredictiveValues _ _ _ md => Some md
  | EvPredictiveQuantiles _ _ _ md => Some md
  | EvSamples _ md => Some md
  | _ => None
  end.

Definition is_inference_call (e : event R) : bool :=
  match e with EvInference _ _ _ => true | _ => false end.

(** The state with another metadata dictionary stored on the model. *)
Definition with_stored_metadata (md : metadata R) (st : state R) : state R :=
  State (set_Y_metadata md (self st)) (calls st) (np_random st).

(** The state with [pre] in front of its record of calls. *)
Definition with_call_prefix (pre : list (event R)) (st : state R) : state R :=
  State (self st) (pre ++ calls st) (np_random st).

(** *** Properties of methods as state transformers *)

(** Running [m] after the change [T] of the state is running [m] and then
    changing the state: [m] neither reads nor writes what [T] touches. *)
Definition commutes {A} (T : state R -> state R) (m : M R A) : Prop :=
  forall st, m (T st) = (fst (m st), T (snd (m st))).

Definition collaborators_pure (g : GP R) : Prop :=
  kern_queries_pure (kern g) /\ predictive_values_pure (likelihood g).

(** With pure collaborators, [m] leaves the model and the generator as
    they were. *)
Definition readonly {A} (m : M R A) : Prop :=
  forall st, collaborators_pure (self st) ->
    self (snd (m st)) = self st /\ np_random (snd (m st)) = np_random st.

(** [m] only adds to the record of calls, and what it adds satisfies [P]. *)
Definition emits {A} (P : event R -> Prop) (m : M R A) : Prop :=
  forall st, exists new, calls (snd (m st)) = calls st ++ new /\ Forall P new.

(** An event that is neither an inference call nor a likelihood call with
    a metadata argument other than [md]. *)
Definition routes (md : option (metadata R)) (e : event R) : Prop :=
  is_inference_call e = false /\
  (likelihood_metadata e = None \/ likelihood_metadata e = Some md).
End Specification.

(** ** Saving and restoring the model: [_getstate] and [_setstate] *)

Section Persistence.
Context {R : Type} `{!Scalar R}.

(** The entries of a state list. *)
Inductive pyobj : Type :=
| ObjArray (a : pyarray R)
| ObjInt (n : nat)
| ObjKern (k : Kern R)
| ObjLikelihood (l : Likelihood R)
| ObjOther (tag : string).

(** [l.pop()]: the last entry and the list without it; [None] on the empty
    list, where Python raises [IndexError]. *)
Fixpoint pop {A} (l : list A) : option (A * list A) :=
  match l with
  | [] => None
  | x :: t =>
      match pop t with
      | None => Some (x, [])
      | Some (y, r) => Some (y, x :: r)
      end
  end.

(** [GP._getstate]; [base_state] is what [Model._getstate(self)] returns
    (the base class is defined in [GPy.core.model]). *)
Definition _getstate (base_state : list pyobj) (g : GP R) : list pyobj :=
  base_state ++ [ObjArray (X g);
                 ObjInt (num_data g);
                 ObjInt (input_dim g);
                 ObjKern (kern g);
                 ObjLikelihood (likelihood g);
                 ObjInt (output_dim g)].

(** What a run of [_setstate] leaves: its outcome, the attribute
    assignments it made, in order, and the list it handed to
    [Model._setstate] if it got that far. *)
Definition restored : Type :=
  outcome unit * list (string * pyobj) * option (list pyobj).

(** [self.a = state.pop()] followed by the rest of the method. *)
Definition pop_attr (a : string) (s : list pyobj * list (string * pyobj))
    (k : list pyobj * list (string * pyobj) -> restored) : restored :=
  match pop (fst s) with
  | None => (Raise "IndexError", snd s, None)
  | Some (v, rest) => k (rest, snd s ++ [(a, v)])
  end.

(** [GP._setstate] *)
Definition _setstate (state_list : list pyobj) : restored :=
  pop_attr "output_dim" (state_list, []) (fun s =>
  pop_attr "likelihood" s (fun s =>
  pop_attr "kern" s (fun s =>
  pop_attr "input_dim" s (fun s =>
  pop_attr "num_data" s (fun s =>
  pop_attr "X" s (fun s =>
  (Ok tt, snd s, Some (fst s)))))))).
End Persistence.

Arguments pyobj R : clear implicits.
Arguments restored R : clear implicits.

(** ** Further vocabulary for the properties of the methods *)

Section Vocabulary.
Context {R : Type} `{!Scalar R}.

(** What the assertions of the constructor ask of its arguments. *)
Definition init_accepts (Xa Ya : pyarray R) (kernel : Kern R)
    (lik : Likelihood R) : bool :=
  (ndim (arr Xa) =? 2)
  && (ndim (arr Ya) =? 2)
  && (shape_rows (shape_of (arr Ya)) =? shape_rows (shape_of (arr Xa)))
  && isinstance (kern_classes kernel) "Kern"
  && isinstance (lik_classes lik) "Likelihood".

(** The attributes assigned by the constructor, the collaborating objects
    apart. *)
Definition data_part (g : GP R) :=
  (name g, X g, num_data g, input_dim g, Y g, output_dim g, Y_metadata g,
   inference_method g, parameters g).

(** The attributes assigned by [parameters_changed]. *)
Definition cache_part (g : GP R) :=
  (posterior g, _log_marginal_likelihood g, grad_dict g).

(** The recorded shapes are the shapes of the data. *)
Definition shapes_consistent (g : GP R) : Prop :=
  shape_of (arr (X g)) = Sh2 (num_data g) (input_dim g)
  /\ shape_of (arr (Y g)) = Sh2 (num_data g) (output_dim g).

(** [m] leaves the observation [f] of the state as it was. *)
Definition preserves {A B} (f : state R -> B) (m : M R A) : Prop :=
  forall st, f (snd (m st)) = f st.

(** Observations of the state that do not look at one of its parts. *)
Definition ignores_calls {B} (f : state R -> B) : Prop :=
  forall g c c' r, f (State g c r) = f (State g c' r).

Definition ignores_kern {B} (f : state R -> B) : Prop :=
  forall k g c r, f (State (set_kern k g) c r) = f (State g c r).

Definition ignores_likelihood {B} (f : state R -> B) : Prop :=
  forall l g c r, f (State (set_likelihood l g) c r) = f (State g c r).

Definition ignores_generator {B} (f : state R -> B) : Prop :=
  forall g c r r', f (State g c r) = f (State g c r').

Definition ignores_cache {B} (f : state R -> B) : Prop :=
  forall p l gd g c r, f (State (set_inferred p l gd g) c r) = f (State g c r).


(** The covariance that [posterior_samples_f] hands to the sampler when
    [full_cov] is false: the entries of the column [v] on the diagonal. *)
Definition diagonal_covariance (n : nat) (v : ndarray R) : ndarray R :=
  tab2 n n (fun i j => if i =? j then get2 v i 0 else s_zero).
End Vocabulary.

(** ** Concrete models over the integers *)

Definition mat (n m : nat) (l : list Z) : ndarray Z := NdArray (Sh2 n m) l.
Definition vec (l : list Z) : ndarray Z := NdArray (Sh1 (length l)) l.

(** A linear kernel [K(A, B) = A·Bᵗ] that refuses inputs whose column count
    is not its declared input dimension. *)
Definition linear_K (d : nat) (s : list Z) (A : ndarray Z)
    (B : option (pyarray Z)) : outcome (ndarray Z) * list Z :=
  if shape_cols (shape_of A) =? d
  then (np_dot A (transpose (match B with Some b => arr b | None => A end)), s)
  else (Raise ValueError, s).

Definition linear_Kdiag (d : nat) (s : list Z) (A : ndarray Z)
    : outcome (ndarray Z) * list Z :=
  if shape_cols (shape_of A) =? d
  then (Ok (tab1 (shape_rows (shape_of A))
              (fun i => sum_over d (fun k => (get2 A i k * get2 A i k)%Z))), s)
  else (Raise ValueError, s).

Definition linear_kern (d : nat) : Kern Z :=
  {| kern_classes := ["Linear"; "Kern"; "Parameterized"];
     kern_input_dim := d;
     kern_store := [];
     K := linear_K d;
     Kdiag := linear_Kdiag d;
     update_gradients_full := fun _ g _ => (Ok tt, data g) |}.

(** A Gaussian likelihood whose store holds the noise variance. *)
Definition gaussian_predictive_values (s : list Z) (mu var : ndarray Z)
    (full_cov : bool) (md : option (metadata Z))
    : outcome (ndarray Z * ndarray Z) * list Z :=
  let noise := nth 0 s 0%Z in
  let n := shape_rows (shape_of var) in
  let added :=
    if full_cov
    then broadcast Z.add var (tab2 n n (fun i j => if i =? j then noise else 0%Z))
    else broadcast Z.add var (scalar noise) in
  match added with
  | Ok v => (Ok (mu, v), s)
  | Raise e => (Raise e, s)
  end.

Definition noise_likelihood (classes : list string) (noise : Z) : Likelihood Z :=
  {| lik_classes := classes;
     lik_store := [noise];
     predictive_values := gaussian_predictive_values;
     predictive_quantiles := fun s mu var q md => (Ok (map (fun _ => mu) q), s);
     samples := fun s Ysim md => (Ok Ysim, s);
     update_gradients := fun s g => (Ok tt, s) |}.

Definition gaussian_likelihood : Likelihood Z :=
  noise_likelihood ["Gaussian"; "Likelihood"; "Parameterized"] 0.

Definition mixed_noise_likelihood : Likelihood Z :=
  noise_likelihood ["MixedNoise"; "Likelihood"; "Parameterized"] 0.

Definition bernoulli_likelihood : Likelihood Z :=
  noise_likelihood ["Bernoulli"; "Likelihood"; "Parameterized"] 0.

(** An inference routine that answers with a fixed [woodbury_inv] (1×1) and
    the observations as woodbury vector. *)
Definition fixed_inference (w : Z) (k : Kern Z) (x : pyarray Z)
    (l : Likelihood Z) (y : pyarray Z) (md : metadata Z)
    : outcome (Posterior Z * Z * gmap string (ndarray Z)) :=
  Ok ({| woodbury_inv := mat 1 1 [w]; woodbury_vector := arr y |}, 0%Z,
      {[ "dL_dK" := mat 1 1 [0%Z]; "dL_dthetaL" := vec [0%Z] ]}).

Definition fixed_method (w : Z) : InferenceMethod Z :=
  {| inf_class := "Fixed"; inference := fixed_inference w |}.

(** A sampling routine that returns the mean once per requested sample and
    steps the generator. *)
Definition stub_random : RandomState Z :=
  {| rng_state := 0;
     multivariate_normal := fun s mean cov sz =>
       (Ok (tab2 (Z.to_nat sz) (size mean) (fun _ j => get1 mean j)), S s) |}.

Definition plain (a : ndarray Z) : pyarray Z := PyArray PlainNdarray a.

(** One training point [X = [[1]]], [Y = [[2]]], two new points. *)
Definition X1 : pyarray Z := plain (mat 1 1 [1%Z]).
Definition Y1 : pyarray Z := plain (mat 1 1 [2%Z]).
Definition Xnew2 : ndarray Z := mat 2 1 [2%Z; 3%Z].

(** The model on [X1], [Y1] as the constructor leaves it. *)
Definition model (k : Kern Z) (l : Likelihood Z) (im : InferenceMethod Z) : GP Z :=
  {| name := "gp";
     X := PyArray ObservableArray (mat 1 1 [1%Z]);
     num_data := 1;
     input_dim := 1;
     Y := PyArray ObservableArray (mat 1 1 [2%Z]);
     output_dim := 1;
     Y_metadata := ∅;
     kern := k;
     likelihood := l;
     inference_method := im;
     parameters := [ParamKern; ParamLikelihood];
     posterior := None;
     _log_marginal_likelihood := None;
     grad_dict := None |}.

(** With a linear kernel, a noise-free Gaussian likelihood and the
    inference routine that answers [woodbury_inv = [[w]]]. *)
Definition model1 (w : Z) : GP Z :=
  model (linear_kern 1) gaussian_likelihood (fixed_method w).

(** Before any recomputation, and after one call of [parameters_changed]. *)
Definition stale1 (w : Z) : state Z := State (model1 w) [] stub_random.
Definition fresh1 (w : Z) : state Z := snd (parameters_changed (stale1 w)).

(** What the collaborators of [fresh1 w] answer at [Xnew2]. *)
Definition posterior1 (w : Z) : Posterior Z :=
  {| woodbury_inv := mat 1 1 [w]; woodbury_vector := mat 1 1 [2%Z] |}.
Definition Ks2 : ndarray Z := mat 2 1 [2; 3]%Z.
Definition Kss2 : ndarray Z := mat 2 2 [4; 6; 6; 9]%Z.
Definition Kd2 : ndarray Z := NdArray (Sh1 2) [4; 9]%Z.

(** A kernel declared for three input columns on the one-column data. *)
Definition fresh_mismatched : state Z :=
  State (set_kern (linear_kern 3) (self (fresh1 1))) [] stub_random.

(** A metadata dictionary. *)
Definition censored : metadata Z := {[ "censored" := vec [1%Z] ]}.

(** Five rows of inputs against four rows of outputs. *)
Definition X5 : pyarray Z := plain (mat 5 1 [0; 1; 2; 3; 4]%Z).
Definition Y4 : pyarray Z := plain (mat 4 1 [0; 1; 0; 1]%Z).

(** An inference routine that fails, one that returns no gradients, and one
    that returns the likelihood's gradient only. *)
Definition failing_method : InferenceMethod Z :=
  {| inf_class := "Failing";
     inference := fun _ _ _ _ _ => Raise "LinAlgError" |}.

Definition method_with_gradients (gd : gmap string (ndarray Z))
    : InferenceMethod Z :=
  {| inf_class := "Fixed";
     inference := fun _ _ _ y _ =>
       Ok ({| woodbury_inv := mat 1 1 [1%Z]; woodbury_vector := arr y |},
           0%Z, gd) |}.

Definition gradients1 : gmap string (ndarray Z) :=
  {[ "dL_dK" := mat 1 1 [0%Z]; "dL_dthetaL" := vec [0%Z] ]}.

Definition likelihood_gradient_only : gmap string (ndarray Z) :=
  {[ "dL_dthetaL" := vec [0%Z] ]}.

Definition stale_with (im : InferenceMethod Z) : state Z :=
  State (model (linear_kern 1) gaussian_likelihood im) [] stub_random.

(** A posterior computed for two training points on the one-point model. *)
Definition posterior_of_two : Posterior Z :=
  {| woodbury_inv := mat 2 2 [1; 0; 0; 1]%Z;
     woodbury_vector := mat 2 1 [2; 2]%Z |}.

Definition outdated_state : state Z :=
  State (set_inferred posterior_of_two 0%Z gradients1 (model1 1)) [] stub_random.

(** A state list of the base class. *)
Definition base_state1 : list (pyobj Z) := [ObjOther "name"; ObjOther "priors"].

(** A likelihood that answers with the [censored] entry of the metadata it
    receives, when there is one, in place of the variance, of the quantiles
    and of the samples. *)
Definition received (md : option (metadata Z)) (otherwise : ndarray Z)
    : ndarray Z :=
  match md with
  | Some d => match d !! "censored" with Some a => a | None => otherwise end
  | None => otherwise
  end.

Definition censoring_likelihood : Likelihood Z :=
  {| lik_classes := ["Censoring"; "Likelihood"; "Parameterized"];
     lik_store := [];
     predictive_values := fun s mu var fc md => (Ok (mu, received md var), s);
     predictive_quantiles := fun s mu var q md => (Ok [received md var], s);
     samples := fun s Ysim md => (Ok (received md Ysim), s);
     update_gradients := fun s g => (Ok tt, s) |}.

(** The fresh model with that likelihood and with a metadata dictionary of
    its own stored on it. *)
Definition stored_metadata : metadata Z := {[ "censored" := vec [7%Z] ]}.

Definition censoring_state : state Z :=
  State (set_Y_metadata stored_metadata
           (set_likelihood censoring_likelihood (self (fresh1 1))))
        [] stub_random.

(** * Facts about the array operations *)

Section ArrayFacts.
Context {R : Type} `{!Scalar R}.

Lemma nth_map_seq (f : nat -> R) (d : R) (n s j : nat) :
  j < n -> nth j (map f (seq s n)) d = f (s + j).
Proof.
  intros Hj.
  rewrite (nth_indep _ d (f 0)) by (rewrite length_map, length_seq; lia).
  rewrite map_nth, seq_nth by lia.
  reflexivity.
Qed.

Lemma nth_flat_rows (f : nat -> nat -> R) (d : R) (m n : nat) :
  forall s i j, i < n -> j < m ->
    nth (i * m + j) (flat_map (fun a => map (f a) (seq 0 m)) (seq s n)) d
    = f (s + i) j.
Proof.
  induction n as [|n IH]; intros s i j Hi Hj; [lia|].
  cbn [seq flat_map].
  destruct i as [|i].
  - rewrite app_nth1 by (rewrite length_map, length_seq; lia).
    rewrite Nat.mul_0_l, Nat.add_0_l, Nat.add_0_r.
    now rewrite nth_map_seq.
  - rewrite app_nth2 by (rewrite length_map, length_seq; lia).
    rewrite length_map, length_seq.
    replace (S i * m + j - m) with (i * m + j) by lia.
    rewrite IH by lia.
    f_equal; lia.
Qed.

Lemma get1_tab1 (f : nat -> R) (n j : nat) :
  j < n -> get1 (tab1 n f) j = f j.
Proof. intros Hj. unfold get1, item, tab1; cbn. now rewrite nth_map_seq. Qed.

Lemma get2_tab2 (f : nat -> nat -> R) (n m i j : nat) :
  i < n -> j < m -> get2 (tab2 n m f) i j = f i j.
Proof.
  intros Hi Hj. unfold get2, item, tab2; cbn.
  now rewrite nth_flat_rows.
Qed.

(** A vector read through the matrix view of broadcasting. *)
Lemma get2_row0 (a : ndarray R) (j : nat) : get2 a 0 j = get1 a j.
Proof. reflexivity. Qed.

Lemma tab1_ext (f g : nat -> R) (n : nat) :
  (forall j, j < n -> f j = g j) -> tab1 n f = tab1 n g.
Proof.
  intros E. unfold tab1. f_equal.
  apply map_ext_in. intros j Hj. apply in_seq in Hj. apply E. lia.
Qed.

Lemma flat_rows_ext (f g : nat -> nat -> R) (m : nat) (l : list nat) :
  (forall i j, In i l -> j < m -> f i j = g i j) ->
  flat_map (fun a => map (f a) (seq 0 m)) l
  = flat_map (fun a => map (g a) (seq 0 m)) l.
Proof.
  induction l as [|a l IH]; intros E; [reflexivity|].
  cbn [flat_map]. f_equal.
  - apply map_ext_in. intros j Hj. apply in_seq in Hj.
    apply E; [now left | lia].
  - apply IH. intros i j Hi Hj. apply E; [now right | exact Hj].
Qed.

Lemma tab2_ext (f g : nat -> nat -> R) (n m : nat) :
  (forall i j, i < n -> j < m -> f i j = g i j) -> tab2 n m f = tab2 n m g.
Proof.
  intros E. unfold tab2. f_equal.
  apply flat_rows_ext. intros i j Hi Hj. apply in_seq in Hi. apply E; lia.
Qed.

Lemma fold_add_ext (f g : nat -> R) (l : list nat) :
  (forall k, In k l -> f k = g k) ->
  forall acc,
    fold_left (fun a k => s_add a (f k)) l acc
    = fold_left (fun a k => s_add a (g k)) l acc.
Proof.
  induction l as [|k l IH]; intros E acc; [reflexivity|].
  cbn [fold_left]. rewrite (E k) by now left.
  apply IH. intros k' Hk'. apply E. now right.
Qed.

Lemma sum_over_ext (f g : nat -> R) (n : nat) :
  (forall k, k < n -> f k = g k) -> sum_over n f = sum_over n g.
Proof.
  intros E. unfold sum_over. apply fold_add_ext.
  intros k Hk. apply in_seq in Hk. apply E. lia.
Qed.

Lemma tab2_one_column (f : nat -> nat -> R) (n : nat) :
  tab2 n 1 f = NdArray (Sh2 n 1) (map (fun i => f i 0) (seq 0 n)).
Proof. reflexivity. Qed.

Lemma bidx_lt (d i : nat) : i < d -> bidx d i = i.
Proof.
  intros Hi. unfold bidx.
  destruct (Nat.eqb_spec d 1); [lia | reflexivity].
Qed.

Lemma bdim_same (n : nat) : bdim n n = Some n.
Proof. unfold bdim. now rewrite Nat.eqb_refl. Qed.

Lemma transpose_shape (a : ndarray R) (n m : nat) :
  shape_of a = Sh2 n m -> shape_of (transpose a) = Sh2 m n.
Proof. intros E. unfold transpose. now rewrite E. Qed.

Lemma transpose_get2 (a : ndarray R) (n m i j : nat) :
  shape_of a = Sh2 n m -> i < m -> j < n ->
  get2 (transpose a) i j = get2 a j i.
Proof.
  intros E Hi Hj. unfold transpose. rewrite E.
  now rewrite get2_tab2.
Qed.

Lemma np_dot_matrix_matrix (a b : ndarray R) (n k m : nat) :
  shape_of a = Sh2 n k -> shape_of b = Sh2 k m ->
  np_dot a b
  = Ok (tab2 n m (fun i j => sum_over k (fun l => s_mul (get2 a i l) (get2 b l j)))).
Proof.
  intros Ea Eb. unfold np_dot. rewrite Ea, Eb.
  now rewrite Nat.eqb_refl.
Qed.

Lemma np_dot_matrix_vector (a b : ndarray R) (n k : nat) :
  shape_of a = Sh2 n k -> shape_of b = Sh1 k ->
  np_dot a b
  = Ok (tab1 n (fun i => sum_over k (fun l => s_mul (get2 a i l) (get1 b l)))).
Proof.
  intros Ea Eb. unfold np_dot. rewrite Ea, Eb.
  now rewrite Nat.eqb_refl.
Qed.

Lemma broadcast_same_matrix (op : R -> R -> R) (a b : ndarray R) (n m : nat) :
  shape_of a = Sh2 n m -> shape_of b = Sh2 n m ->
  broadcast op a b = Ok (tab2 n m (fun i j => op (get2 a i j) (get2 b i j))).
Proof.
  intros Ea Eb. unfold broadcast. rewrite Ea, Eb. cbn.
  rewrite !bdim_same. f_equal.
  apply tab2_ext. intros i j Hi Hj.
  now rewrite !bidx_lt.
Qed.

Lemma broadcast_same_vector (op : R -> R -> R) (a b : ndarray R) (n : nat) :
  shape_of a = Sh1 n -> shape_of b = Sh1 n ->
  broadcast op a b = Ok (tab1 n (fun j => op (get1 a j) (get1 b j))).
Proof.
  intros Ea Eb. unfold broadcast. rewrite Ea, Eb. cbn.
  rewrite !bdim_same. f_equal.
  apply tab1_ext. intros j Hj.
  now rewrite !bidx_lt.
Qed.

Lemma np_sum0_matrix (a : ndarray R) (n m : nat) :
  shape_of a = Sh2 n m ->
  np_sum0 a = Ok (tab1 m (fun j => sum_over n (fun i => get2 a i j))).
Proof. intros Ea. unfold np_sum0. now rewrite Ea. Qed.

Lemma reshape_col_tab1 (f : nat -> R) (n : nat) :
  reshape_col (tab1 n f) = NdArray (Sh2 n 1) (map f (seq 0 n)).
Proof. reflexivity. Qed.

Lemma new_axis_col_tab1 (f : nat -> R) (n : nat) :
  new_axis_col (tab1 n f) = NdArray (Sh2 n 1) (map f (seq 0 n)).
Proof. reflexivity. Qed.

(** *** The array part of [_raw_predict], operation by operation *)

Section Pipelines.
Variables (M N : nat) (Ks Wi : ndarray R).
Hypothesis Ks_shape : shape_of Ks = Sh2 M N.
Hypothesis Wi_shape : shape_of Wi = Sh2 N N.

Local Abbreviation Kx := (transpose Ks).

Lemma Kx_shape : shape_of Kx = Sh2 N M.
Proof. now apply transpose_shape. Qed.

Lemma Kx_entry (k i : nat) : k < N -> i < M -> get2 Kx k i = get2 Ks i k.
Proof. intros. now apply (transpose_get2 Ks M N). Qed.

Lemma KxT_shape : shape_of (transpose Kx) = Sh2 M N.
Proof. apply transpose_shape, Kx_shape. Qed.

Lemma KxT_entry (i k : nat) :
  i < M -> k < N -> get2 (transpose Kx) i k = get2 Ks i k.
Proof.
  intros Hi Hk.
  rewrite (transpose_get2 Kx N M) by (try apply Kx_shape; lia).
  now apply Kx_entry.
Qed.

Lemma WiKx_run : np_dot Wi Kx = Ok (WiKx_of M N Wi Ks).
Proof. apply np_dot_matrix_matrix; [exact Wi_shape | apply Kx_shape]. Qed.

Lemma WiKx_entry (j i : nat) :
  j < N -> i < M -> get2 (WiKx_of M N Wi Ks) j i = spec_WiKx N Wi Ks j i.
Proof.
  intros Hj Hi. unfold WiKx_of. rewrite get2_tab2 by assumption.
  apply sum_over_ext. intros l Hl. now rewrite Kx_entry.
Qed.


(** [Kxx - np.sum(WiKx*Kx, 0)] reshaped to a column *)
Lemma diag_variance_run (Kd : ndarray R) :
  shape_of Kd = Sh1 M ->
  exists prod red var,
    np_mul (WiKx_of M N Wi Ks) Kx = Ok prod /\
    np_sum0 prod = Ok red /\
    np_sub Kd red = Ok var /\
    reshape_col var = spec_var_diag M N Kd Wi Ks.
Proof.
  intros Kd_shape.
  eexists _, _, _. split; [|split; [|split]].
  - apply (broadcast_same_matrix _ _ _ N M); [reflexivity | apply Kx_shape].
  - apply (np_sum0_matrix _ N M). reflexivity.
  - apply (broadcast_same_vector _ _ _ M); [exact Kd_shape | reflexivity].
  - unfold spec_var_diag. rewrite tab2_one_column, reshape_col_tab1. f_equal.
    apply map_ext_in. intros i Hi. apply in_seq in Hi.
    f_equal. rewrite get1_tab1 by lia.
    apply sum_over_ext. intros j Hj.
    rewrite get2_tab2 by lia.
    now rewrite WiKx_entry, Kx_entry by lia.
Qed.

(** [np.dot(Kx.T, woodbury_vector)], made a column when it is flat *)
Lemma mean_run (wv : ndarray R) :
  (exists P, shape_of wv = Sh2 N P) \/ shape_of wv = Sh1 N ->
  exists mu,
    np_dot (transpose Kx) wv = Ok mu /\
    (if ndim mu =? 1 then new_axis_col mu else mu) = spec_mean M N Ks wv.
Proof.
  intros [[P wv_shape] | wv_shape].
  - eexists. split.
    + apply (np_dot_matrix_matrix _ _ M N P); [apply KxT_shape | exact wv_shape].
    + unfold spec_mean, wv_cols, wv_entry. rewrite wv_shape. cbn.
      apply tab2_ext. intros i p Hi Hp.
      apply sum_over_ext. intros k Hk. now rewrite KxT_entry.
  - eexists. split.
    + apply (np_dot_matrix_vector _ _ M N); [apply KxT_shape | exact wv_shape].
    + unfold spec_mean, wv_cols, wv_entry. rewrite wv_shape. cbn.
      rewrite tab2_one_column. change (ndim (tab1 M ?f) =? 1) with true.
      cbv iota. rewrite new_axis_col_tab1. f_equal.
      apply map_ext_in. intros i Hi. apply in_seq in Hi.
      apply sum_over_ext. intros k Hk. now rewrite KxT_entry by lia.
Qed.
End Pipelines.
End ArrayFacts.

(** * Facts about the monad of methods *)

Section MonadFacts.
Context {R : Type} `{!Scalar R}.

Lemma bind_ok {A B} (m : M R A) (k : A -> M R B) (st st' : state R) (a : A) :
  m st = (Ok a, st') -> bind m k st = k a st'.
Proof. intros E. unfold bind. now rewrite E. Qed.

Lemma bind_raise {A B} (m : M R A) (k : A -> M R B) (st st' : state R) (e : exn) :
  m st = (Raise e, st') -> bind m k st = (Raise e, st').
Proof. intros E. unfold bind. now rewrite E. Qed.

Lemma set_kern_same (g : GP R) :
  set_kern (set_kern_store (kern_store (kern g)) (kern g)) g = g.
Proof. destruct g as [? ? ? ? ? ? ? k ? ? ? ? ? ?]. now destruct k. Qed.

Lemma set_likelihood_same (g : GP R) :
  set_likelihood (set_lik_store (lik_store (likelihood g)) (likelihood g)) g = g.
Proof. destruct g as [? ? ? ? ? ? ? ? l ? ? ? ? ?]. now destruct l. Qed.

(** *** Commutation with a change of the state *)

Section Commutes.
Variable T : state R -> state R.

Lemma commutes_ret {A} (a : A) : commutes T (ret a).
Proof. intros st. reflexivity. Qed.

Lemma commutes_raise {A} (e : exn) : commutes T (raise (A := A) e).
Proof. intros st. reflexivity. Qed.

Lemma commutes_lift {A} (o : outcome A) : commutes T (lift o).
Proof. intros st. reflexivity. Qed.

Lemma commutes_bind {A B} (m : M R A) (k : A -> M R B) :
  commutes T m -> (forall a, commutes T (k a)) -> commutes T (bind m k).
Proof.
  intros Hm Hk st. unfold bind. rewrite Hm.
  destruct (m st) as [[a | e] st']; cbn; [apply Hk | reflexivity].
Qed.

Lemma commutes_getitem (d : gmap string (ndarray R)) (key : string) :
  commutes T (getitem d key).
Proof.
  unfold getitem. destruct (d !! key); [apply commutes_ret | apply commutes_raise].
Qed.
End Commutes.

(** The methods' primitive steps do not look at the stored metadata,
    except for reading the attribute itself. *)
Section StoredMetadata.
Variable md : metadata R.
Local Abbreviation T := (with_stored_metadata md).

Lemma metadata_getattr {A} (f : GP R -> A) :
  (forall g, f (set_Y_metadata md g) = f g) -> commutes T (getattr f).
Proof. intros E [g c r]. unfold getattr, T, with_stored_metadata; cbn. now rewrite E. Qed.

Lemma metadata_getattr_opt {A} (f : GP R -> option A) :
  (forall g, f (set_Y_metadata md g) = f g) -> commutes T (getattr_opt f).
Proof.
  intros E [g c r]. unfold getattr_opt, T, with_stored_metadata; cbn.
  rewrite E. now destruct (f g).
Qed.

Lemma metadata_log (e : event R) : commutes T (log e).
Proof. intros [g c r]. reflexivity. Qed.

Lemma metadata_call_kern {A} (e : event R)
    (f : Kern R -> list R -> outcome A * list R) :
  commutes T (call_kern e f).
Proof.
  intros [g c r]. unfold call_kern, T, with_stored_metadata; cbn.
  now destruct (f (kern g) (kern_store (kern g))).
Qed.

Lemma metadata_call_likelihood {A} (e : event R)
    (f : Likelihood R -> list R -> outcome A * list R) :
  commutes T (call_likelihood e f).
Proof.
  intros [g c r]. unfold call_likelihood, T, with_stored_metadata; cbn.
  now destruct (f (likelihood g) (lik_store (likelihood g))).
Qed.

Lemma metadata_call_multivariate_normal (mean cov : ndarray R) (sz : Z) :
  commutes T (call_multivariate_normal mean cov sz).
Proof.
  intros [g c r]. unfold call_multivariate_normal, T, with_stored_metadata; cbn.
  now destruct (multivariate_normal r (rng_state r) mean cov sz).
Qed.
End StoredMetadata.

(** Nor do they look at the record of calls. *)
Section CallPrefix.
Variable pre : list (event R).
Local Abbreviation T := (with_call_prefix pre).

Lemma prefix_getattr {A} (f : GP R -> A) : commutes T (getattr f).
Proof. intros [g c r]. reflexivity. Qed.

Lemma prefix_getattr_opt {A} (f : GP R -> option A) : commutes T (getattr_opt f).
Proof.
  intros [g c r]. unfold getattr_opt, T, with_call_prefix; cbn.
  now destruct (f g).
Qed.

Lemma prefix_log (e : event R) : commutes T (log e).
Proof.
  intros [g c r]. unfold log, T, with_call_prefix; cbn.
  now rewrite app_assoc.
Qed.

Lemma prefix_call_kern {A} (e : event R)
    (f : Kern R -> list R -> outcome A * list R) :
  commutes T (call_kern e f).
Proof.
  intros [g c r]. unfold call_kern, T, with_call_prefix; cbn.
  destruct (f (kern g) (kern_store (kern g))); cbn.
  now rewrite app_assoc.
Qed.

Lemma prefix_call_likelihood {A} (e : event R)
    (f : Likelihood R -> list R -> outcome A * list R) :
  commutes T (call_likelihood e f).
Proof.
  intros [g c r]. unfold call_likelihood, T, with_call_prefix; cbn.
  destruct (f (likelihood g) (lik_store (likelihood g))); cbn.
  now rewrite app_assoc.
Qed.
End CallPrefix.

(** *** Leaving the model as it was *)

Lemma readonly_ret {A} (a : A) : readonly (ret (R := R) a).
Proof. intros st _. now split. Qed.

Lemma readonly_lift {A} (o : outcome A) : readonly (lift (R := R) o).
Proof. intros st _. now split. Qed.

Lemma readonly_getattr {A} (f : GP R -> A) : readonly (getattr f).
Proof. intros st _. now split. Qed.

Lemma readonly_getattr_opt {A} (f : GP R -> option A) : readonly (getattr_opt f).
Proof. intros st _. unfold getattr_opt. now destruct (f (self st)). Qed.

Lemma readonly_bind {A B} (m : M R A) (k : A -> M R B) :
  readonly m -> (forall a, readonly (k a)) -> readonly (bind m k).
Proof.
  intros Hm Hk st Hp. unfold bind.
  destruct (Hm st Hp) as [Hs Hr].
  destruct (m st) as [[a | e] st']; cbn in *; [|now split].
  destruct (Hk a st') as [Hs' Hr']; [now rewrite Hs|].
  split; congruence.
Qed.

Lemma readonly_call_K (e : event R) (A : ndarray R) (B : option (pyarray R)) :
  readonly (call_kern e (fun k s => K k s A B)).
Proof.
  intros [g c r] [[HK _] _]. unfold call_kern; cbn in *.
  specialize (HK (kern_store (kern g)) A B).
  destruct (K (kern g) (kern_store (kern g)) A B) as [o s']; cbn in *.
  subst s'. split; [apply set_kern_same | reflexivity].
Qed.

Lemma readonly_call_Kdiag (e : event R) (A : ndarray R) :
  readonly (call_kern e (fun k s => Kdiag k s A)).
Proof.
  intros [g c r] [[_ HK] _]. unfold call_kern; cbn in *.
  specialize (HK (kern_store (kern g)) A).
  destruct (Kdiag (kern g) (kern_store (kern g)) A) as [o s']; cbn in *.
  subst s'. split; [apply set_kern_same | reflexivity].
Qed.

Lemma readonly_call_predictive_values (e : event R) (mu var : ndarray R)
    (fc : bool) (md : option (metadata R)) :
  readonly (call_likelihood e (fun l s => predictive_values l s mu var fc md)).
Proof.
  intros [g c r] [_ HP]. unfold call_likelihood; cbn in *.
  specialize (HP (lik_store (likelihood g)) mu var fc md).
  destruct (predictive_values (likelihood g) (lik_store (likelihood g)) mu var fc md)
    as [o s']; cbn in *.
  subst s'. split; [apply set_likelihood_same | reflexivity].
Qed.

(** *** Adding to the record of calls *)

Section Emits.
Variable P : event R -> Prop.

Lemma emits_nothing {A} (m : M R A) :
  (forall st, calls (snd (m st)) = calls st) -> emits P m.
Proof. intros E st. exists []. now rewrite E, app_nil_r. Qed.

Lemma emits_ret {A} (a : A) : emits P (ret a).
Proof. now apply emits_nothing. Qed.

Lemma emits_raise {A} (e : exn) : emits P (raise (A := A) e).
Proof. now apply emits_nothing. Qed.

Lemma emits_lift {A} (o : outcome A) : emits P (lift o).
Proof. now apply emits_nothing. Qed.

Lemma emits_getattr {A} (f : GP R -> A) : emits P (getattr f).
Proof. now apply emits_nothing. Qed.

Lemma emits_getattr_opt {A} (f : GP R -> option A) : emits P (getattr_opt f).
Proof.
  apply emits_nothing. intros st. unfold getattr_opt.
  now destruct (f (self st)).
Qed.

Lemma emits_modify_self (f : GP R -> GP R) : emits P (modify_self f).
Proof. now apply emits_nothing. Qed.

Lemma emits_getitem (d : gmap string (ndarray R)) (key : string) :
  emits P (getitem d key).
Proof.
  unfold getitem. destruct (d !! key); [apply emits_ret | apply emits_raise].
Qed.

Lemma emits_bind {A B} (m : M R A) (k : A -> M R B) :
  emits P m -> (forall a, emits P (k a)) -> emits P (bind m k).
Proof.
  intros Hm Hk st. unfold bind.
  destruct (Hm st) as [new1 [E1 F1]].
  destruct (m st) as [[a | e] st']; cbn in *; [|now exists new1].
  destruct (Hk a st') as [new2 [E2 F2]].
  exists (new1 ++ new2). split.
  - now rewrite E2, E1, app_assoc.
  - now apply Forall_app.
Qed.

Lemma emits_log (e : event R) : P e -> emits P (log e).
Proof. intros He st. exists [e]. split; [reflexivity | now constructor]. Qed.

Lemma emits_call_kern {A} (e : event R)
    (f : Kern R -> list R -> outcome A * list R) :
  P e -> emits P (call_kern e f).
Proof.
  intros He st. exists [e]. unfold call_kern.
  destruct (f (kern (self st)) (kern_store (kern (self st)))).
  split; [reflexivity | now constructor].
Qed.

Lemma emits_call_likelihood {A} (e : event R)
    (f : Likelihood R -> list R -> outcome A * list R) :
  P e -> emits P (call_likelihood e f).
Proof.
  intros He st. exists [e]. unfold call_likelihood.
  destruct (f (likelihood (self st)) (lik_store (likelihood (self st)))).
  split; [reflexivity | now constructor].
Qed.

Lemma emits_call_multivariate_normal (mean cov : ndarray R) (sz : Z) :
  P (EvMultivariateNormal mean cov sz) ->
  emits P (call_multivariate_normal mean cov sz).
Proof.
  intros He st. exists [EvMultivariateNormal mean cov sz].
  unfold call_multivariate_normal.
  destruct (multivariate_normal (np_random st) (rng_state (np_random st)) mean cov sz).
  split; [reflexivity | now constructor].
Qed.
End Emits.
End MonadFacts.

(** * Facts about the methods of [GP] *)

Ltac split_method_body :=
  match goal with
  | |- _ _ (if ?b then _ else _) => destruct b
  | |- _ _ (let '(_, _) := ?p in _) => destruct p
  | |- _ (if ?b then _ else _) => destruct b
  | |- _ (let '(_, _) := ?p in _) => destruct p
  end.

Ltac commutes_with_metadata :=
  repeat first
    [ apply commutes_ret | apply commutes_raise | apply commutes_lift
    | apply commutes_getitem
    | apply metadata_getattr; intros ?; reflexivity
    | apply metadata_getattr_opt; intros ?; reflexivity
    | apply metadata_log | apply metadata_call_kern
    | apply metadata_call_likelihood
    | apply metadata_call_multivariate_normal
    | apply commutes_bind; [|intros ?]
    | split_method_body ].

Ltac commutes_with_prefix :=
  repeat first
    [ apply commutes_ret | apply commutes_raise | apply commutes_lift
    | apply commutes_getitem
    | apply prefix_getattr | apply prefix_getattr_opt
    | apply prefix_log | apply prefix_call_kern | apply prefix_call_likelihood
    | apply commutes_bind; [|intros ?]
    | split_method_body ].

Ltac keeps_model :=
  repeat first
    [ apply readonly_ret | apply readonly_lift
    | apply readonly_getattr | apply readonly_getattr_opt
    | apply readonly_call_K | apply readonly_call_Kdiag
    | apply readonly_call_predictive_values
    | apply readonly_bind; [|intros ?]
    | split_method_body ].

Ltac emits_routed :=
  repeat first
    [ apply emits_ret | apply emits_raise | apply emits_lift
    | apply emits_getattr | apply emits_getattr_opt | apply emits_getitem
    | apply emits_call_kern; (split; [reflexivity | left; reflexivity])
    | apply emits_call_multivariate_normal; (split; [reflexivity | left; reflexivity])
    | apply emits_call_likelihood; (split; [reflexivity | right; reflexivity])
    | apply emits_bind; [|intros ?]
    | split_method_body ].

Section MethodFacts.
Context {R : Type} `{!Scalar R}.

(** [_raw_predict] and the methods built on it never read the stored
    metadata. *)
Lemma raw_predict_metadata (md' : metadata R) (Xnew : ndarray R) (fc : bool) :
  commutes (with_stored_metadata md') (_raw_predict Xnew fc).
Proof. unfold _raw_predict. commutes_with_metadata. Qed.

Lemma predict_metadata (md' : metadata R) (Xnew : ndarray R) (fc : bool)
    (md : option (metadata R)) :
  commutes (with_stored_metadata md') (predict Xnew fc md).
Proof.
  unfold predict. apply commutes_bind; [apply raw_predict_metadata|].
  intros ?. commutes_with_metadata.
Qed.

Lemma predict_quantiles_metadata (md' : metadata R) (Xa : ndarray R)
    (q : list Q) (md : option (metadata R)) :
  commutes (with_stored_metadata md') (predict_quantiles Xa q md).
Proof.
  unfold predict_quantiles. apply commutes_bind; [apply raw_predict_metadata|].
  intros ?. commutes_with_metadata.
Qed.

Lemma posterior_samples_metadata (md' : metadata R) (Xa : ndarray R)
    (sz : Z) (fc : bool) (md : option (metadata R)) :
  commutes (with_stored_metadata md') (posterior_samples Xa sz fc md).
Proof.
  unfold posterior_samples, posterior_samples_f.
  apply commutes_bind; [|intros ?; commutes_with_metadata].
  apply commutes_bind; [apply raw_predict_metadata|].
  intros ?. commutes_with_metadata.
Qed.

(** [predict] does not read the record of calls. *)
Lemma predict_prefix (pre : list (event R)) (Xnew : ndarray R) (fc : bool)
    (md : option (metadata R)) :
  commutes (with_call_prefix pre) (predict Xnew fc md).
Proof. unfold predict, _raw_predict. commutes_with_prefix. Qed.

(** With pure collaborators [predict] leaves the model as it was. *)
Lemma predict_readonly (Xnew : ndarray R) (fc : bool) (md : option (metadata R)) :
  readonly (predict Xnew fc md).
Proof. unfold predict, _raw_predict. keeps_model. Qed.

(** The calls made by the three prediction methods. *)
Lemma raw_predict_routes (md : option (metadata R)) (Xnew : ndarray R) (fc : bool) :
  emits (routes md) (_raw_predict Xnew fc).
Proof. unfold _raw_predict. emits_routed. Qed.

Lemma predict_routes (md : option (metadata R)) (Xnew : ndarray R) (fc : bool) :
  emits (routes md) (predict Xnew fc md).
Proof.
  unfold predict. apply emits_bind; [apply raw_predict_routes|].
  intros ?. emits_routed.
Qed.

Lemma predict_quantiles_routes (md : option (metadata R)) (Xa : ndarray R)
    (q : list Q) :
  emits (routes md) (predict_quantiles Xa q md).
Proof.
  unfold predict_quantiles. apply emits_bind; [apply raw_predict_routes|].
  intros ?. emits_routed.
Qed.

Lemma posterior_samples_routes (md : option (metadata R)) (Xa : ndarray R)
    (sz : Z) (fc : bool) :
  emits (routes md) (posterior_samples Xa sz fc md).
Proof.
  unfold posterior_samples, posterior_samples_f.
  apply emits_bind; [|intros ?; emits_routed].
  apply emits_bind; [apply raw_predict_routes|].
  intros ?. emits_routed.
Qed.

(** *** Running [_raw_predict] step by step *)

Lemma bind_assoc {A B C} (m : M R A) (k : A -> M R B) (k' : B -> M R C)
    (st : state R) :
  bind (bind m k) k' st = bind m (fun a => bind (k a) k') st.
Proof. unfold bind. now destruct (m st) as [[a | e] st']. Qed.

Lemma getattr_opt_run {A} (f : GP R -> option A) (st : state R) (a : A) :
  f (self st) = Some a -> getattr_opt f st = (Ok a, st).
Proof. intros E. unfold getattr_opt. now rewrite E. Qed.

Lemma lift_run {A} (o : outcome A) (st : state R) : lift o st = (o, st).
Proof. reflexivity. Qed.

Lemma call_kern_run {A} (e : event R)
    (f : Kern R -> list R -> outcome A * list R) (st : state R)
    (o : outcome A) (s' : list R) :
  f (kern (self st)) (kern_store (kern (self st))) = (o, s') ->
  call_kern e f st
  = (o, State (set_kern (set_kern_store s' (kern (self st))) (self st))
              (calls st ++ [e]) (np_random st)).
Proof. intros E. unfold call_kern. now rewrite E. Qed.

Section RawPredictRun.
Variables (st : state R) (Xnew Ks : ndarray R) (post : Posterior R).
Variables (M N : nat) (s1 : list R).
Hypothesis K_run :
  K (kern (self st)) (kern_store (kern (self st))) Xnew (Some (X (self st)))
  = (Ok Ks, s1).
Hypothesis Ks_shape : shape_of Ks = Sh2 M N.
Hypothesis fresh : posterior (self st) = Some post.
Hypothesis Wi_shape : shape_of (woodbury_inv post) = Sh2 N N.
Hypothesis wv_shape :
  (exists P, shape_of (woodbury_vector post) = Sh2 N P)
  \/ shape_of (woodbury_vector post) = Sh1 N.

Lemma raw_predict_diag_run (Kd : ndarray R) (s2 : list R) :
  Kdiag (kern (self st)) s1 Xnew = (Ok Kd, s2) ->
  shape_of Kd = Sh1 M ->
  fst (_raw_predict Xnew false st)
  = Ok (spec_mean M N Ks (woodbury_vector post),
        spec_var_diag M N Kd (woodbury_inv post) Ks).
Proof.
  intros Kd_run Kd_shape.
  destruct (mean_run M N Ks Ks_shape _ wv_shape) as [mu [mu_run mu_col]].
  destruct (diag_variance_run M N Ks (woodbury_inv post) Ks_shape
              Kd Kd_shape) as [prod [red [var [prod_run [red_run [var_run var_col]]]]]].
  unfold _raw_predict.
  erewrite bind_ok by reflexivity.
  erewrite bind_ok by (apply call_kern_run; exact K_run).
  erewrite bind_ok by (apply getattr_opt_run; exact fresh).
  erewrite bind_ok
    by (rewrite (WiKx_run M N Ks (woodbury_inv post) Ks_shape Wi_shape);
        apply lift_run).
  erewrite bind_ok by (apply getattr_opt_run; exact fresh).
  erewrite bind_ok by (rewrite mu_run; apply lift_run).
  cbv iota. rewrite bind_assoc.
  erewrite bind_ok by (apply call_kern_run; exact Kd_run).
  rewrite bind_assoc.
  erewrite bind_ok by (rewrite prod_run; apply lift_run).
  rewrite bind_assoc.
  erewrite bind_ok by (rewrite red_run; apply lift_run).
  rewrite bind_assoc.
  erewrite bind_ok by (rewrite var_run; apply lift_run).
  erewrite bind_ok by reflexivity.
  cbn [ret fst]. now rewrite mu_col, var_col.
Qed.

End RawPredictRun.
End MethodFacts.

(** * Facts about construction *)

Section ConstructionFacts.
Context {R : Type} `{!Scalar R}.
Variables exact_inf ep_inf :
  Kern R -> pyarray R -> Likelihood R -> pyarray R -> metadata R ->
  outcome (Posterior R * R * gmap string (ndarray R)).

(** The inference method a constructor call ends up with. *)
Lemma init_ok (Xa Ya : pyarray R) (kernel : Kern R) (lik : Likelihood R)
    (im : option (InferenceMethod R)) (nm : string)
    (md : option (metadata R)) (n d p : nat) :
  shape_of (arr Xa) = Sh2 n d ->
  shape_of (arr Ya) = Sh2 n p ->
  isinstance (kern_classes kernel) "Kern" = true ->
  isinstance (lik_classes lik) "Likelihood" = true ->
  exists g out,
    __init__ exact_inf ep_inf Xa Ya kernel lik im nm md = (Ok g, out) /\
    kern g = kernel /\ likelihood g = lik /\
    arr (X g) = arr Xa /\ arr (Y g) = arr Ya /\
    num_data g = n /\ input_dim g = d /\ output_dim g = p /\
    Y_metadata g = or_empty md.
Proof.
  intros EX EY Hk Hl.
  unfold __init__, assert_, unpack2, shape0, ndim.
  assert (EX' : shape_of (arr (if is_observable Xa then Xa
                               else ObservableArray_new Xa)) = Sh2 n d)
    by (destruct (is_observable Xa); exact EX).
  rewrite EX', EX, EY. cbn [shape_ndim Nat.eqb arr ObservableArray_new].
  rewrite EY, Nat.eqb_refl, Hk, Hl.
  destruct (match im with
            | Some im0 => (im0, [])
            | None => default_inference exact_inf ep_inf lik
            end) as [i printed].
  eexists _, _. split; [reflexivity|]. cbn.
  repeat split. now destruct (is_observable Xa).
Qed.

Lemma init_inv (Xa Ya : pyarray R) (kernel : Kern R) (lik : Likelihood R)
    (im : option (InferenceMethod R)) (nm : string)
    (md : option (metadata R)) (g : GP R) (out : list (event R)) :
  __init__ exact_inf ep_inf Xa Ya kernel lik im nm md = (Ok g, out) ->
  posterior g = None /\ _log_marginal_likelihood g = None /\
  grad_dict g = None /\
  (inference_method g, out)
  = match im with
    | Some i => (i, [])
    | None => default_inference exact_inf ep_inf lik
    end.
Proof.
  unfold __init__, assert_, unpack2, shape0.
  destruct (ndim (arr Xa) =? 2); [|discriminate].
  destruct (shape_of (arr (if is_observable Xa then Xa
                           else ObservableArray_new Xa))); try discriminate.
  destruct (ndim (arr Ya) =? 2); [|discriminate].
  cbn [arr ObservableArray_new].
  destruct (shape_of (arr Ya)) as [|n'|n' p]; try discriminate.
  - destruct (n' =? n); discriminate.
  - destruct (n' =? n); [|discriminate].
    destruct (isinstance (kern_classes kernel) "Kern"); [|discriminate].
    destruct (isinstance (lik_classes lik) "Likelihood"); [|discriminate].
    destruct (match im with
              | Some im0 => (im0, [])
              | None => default_inference exact_inf ep_inf lik
              end) as [i printed].
    intros E. injection E as <- <-. now cbn.
Qed.

Lemma init_rows_differ (Xa Ya : pyarray R) (kernel : Kern R)
    (lik : Likelihood R) (im : option (InferenceMethod R)) (nm : string)
    (md : option (metadata R)) (n d n' p : nat) :
  shape_of (arr Xa) = Sh2 n d ->
  shape_of (arr Ya) = Sh2 n' p ->
  n <> n' ->
  __init__ exact_inf ep_inf Xa Ya kernel lik im nm md
  = (Raise AssertionError, []).
Proof.
  intros EX EY Hne.
  unfold __init__, assert_, unpack2, shape0, ndim.
  assert (EX' : shape_of (arr (if is_observable Xa then Xa
                               else ObservableArray_new Xa)) = Sh2 n d)
    by (destruct (is_observable Xa); exact EX).
  rewrite EX', EX, EY. cbn [shape_ndim Nat.eqb arr ObservableArray_new].
  rewrite EY.
  destruct (Nat.eqb_spec n' n); [congruence | reflexivity].
Qed.
End ConstructionFacts.

(** * The properties of the specification *)

Ltac emits_only_queries :=
  repeat first
    [ apply emits_ret | apply emits_raise | apply emits_lift
    | apply emits_getattr | apply emits_getattr_opt | apply emits_getitem
    | apply emits_modify_self
    | apply emits_call_kern; reflexivity
    | apply emits_call_likelihood; reflexivity
    | apply emits_bind; [|intros ?]
    | split_method_body ].

Section Claims.
Context {R : Type} `{!Scalar R}.
Variables exact_inf ep_inf :
  Kern R -> pyarray R -> Likelihood R -> pyarray R -> metadata R ->
  outcome (Posterior R * R * gmap string (ndarray R)).

(** C7. On a fresh model whose kernel answers [K(Xnew, X)] with an M×N
    matrix [Ks] and [Kdiag(Xnew)] with a vector [Kd] of length M, and whose
    posterior holds an N×N [woodbury_inv] and an N×P (or flat, length N)
    [woodbury_vector], [_raw_predict(Xnew, full_cov=False)] returns the
    mean [Ks · woodbury_vector] as a column, and as variance the M×1
    column [Kd − Σ(WiKx ⊙ Kx, axis=0)] with [Kx = Ksᵗ] and
    [WiKx = woodbury_inv · Kx]. *)
Theorem raw_predict_diagonal_formula
    (st : state R) (Xnew Ks Kd : ndarray R) (post : Posterior R)
    (M N : nat) (s1 s2 : list R) :
  K (kern (self st)) (kern_store (kern (self st))) Xnew (Some (X (self st)))
  = (Ok Ks, s1) ->
  shape_of Ks = Sh2 M N ->
  posterior (self st) = Some post ->
  shape_of (woodbury_inv post) = Sh2 N N ->
  ((exists P, shape_of (woodbury_vector post) = Sh2 N P)
   \/ shape_of (woodbury_vector post) = Sh1 N) ->
  Kdiag (kern (self st)) s1 Xnew = (Ok Kd, s2) ->
  shape_of Kd = Sh1 M ->
  fst (_raw_predict Xnew false st)
  = Ok (spec_mean M N Ks (woodbury_vector post),
        spec_var_diag M N Kd (woodbury_inv post) Ks).
Proof.
  intros HK HKs Hpost HWi Hwv HKd HKds.
  exact (raw_predict_diag_run st Xnew Ks post M N s1
           HK HKs Hpost HWi Hwv Kd s2 HKd HKds).
Qed.

(** C8. When the kernel's covariance queries and the likelihood's
    predictive transformation leave their objects as they found them, two
    consecutive calls of [predict] with the same arguments return the same
    result, and the model (posterior, cached log marginal likelihood,
    gradients, X, Y and all other attributes) is after each call what it
    was before the first. *)
Theorem predict_twice_identical
    (st : state R) (Xnew : ndarray R) (full_cov : bool)
    (md : option (metadata R)) :
  collaborators_pure (self st) ->
  fst (predict Xnew full_cov md (snd (predict Xnew full_cov md st)))
  = fst (predict Xnew full_cov md st)
  /\ self (snd (predict Xnew full_cov md st)) = self st
  /\ self (snd (predict Xnew full_cov md (snd (predict Xnew full_cov md st))))
     = self st.
Proof.
  intros Hpure.
  destruct (predict_readonly Xnew full_cov md st Hpure) as [Hs Hr].
  assert (Hpure' : collaborators_pure (self (snd (predict Xnew full_cov md st))))
    by now rewrite Hs.
  destruct (predict_readonly Xnew full_cov md _ Hpure') as [Hs' _].
  split; [|split; [exact Hs | now rewrite Hs', Hs]].
  set (base := State (self st) [] (np_random st)).
  assert (Hany : forall c,
    fst (predict Xnew full_cov md (State (self st) c (np_random st)))
    = fst (predict Xnew full_cov md base)).
  { intros c.
    pose proof (predict_prefix c Xnew full_cov md base) as E.
    unfold with_call_prefix in E. cbn [self calls np_random base] in E.
    rewrite app_nil_r in E. now rewrite E. }
  destruct (snd (predict Xnew full_cov md st)) as [g1 c1 r1] eqn:E1.
  cbn [self np_random] in Hs, Hr. subst g1 r1.
  rewrite Hany.
  destruct st as [g c r]. cbn [self np_random]. now rewrite Hany.
Qed.

(** C4, as the code has it.  [log_likelihood()] makes no staleness check: it
    reads the cached attribute.  On a model that the constructor has just returned
    and on which [parameters_changed] has never run, the attribute has
    not been assigned, so the call fails with Python's [AttributeError]
    and returns no value; the model is left as it was. *)
Theorem log_likelihood_before_inference
    (Xa Ya : pyarray R) (kernel : Kern R) (lik : Likelihood R)
    (im : option (InferenceMethod R)) (nm : string)
    (md : option (metadata R)) (g : GP R) (out : list (event R))
    (c : list (event R)) (r : RandomState R) :
  __init__ exact_inf ep_inf Xa Ya kernel lik im nm md = (Ok g, out) ->
  log_likelihood (State g c r) = (Raise AttributeError, State g c r).
Proof.
  intros E. apply init_inv in E as (_ & E & _).
  unfold log_likelihood, getattr_opt. cbn [self]. now rewrite E.
Qed.

(** C5, as the code has it.  For two-dimensional [X] and [Y] whose row
    counts differ, the constructor fails at its assertion [Y.shape[0] == self.num_data]
    with Python's [AssertionError], whatever the other arguments are; no
    model is produced and nothing is printed. *)
Theorem construction_rejects_row_mismatch
    (Xa Ya : pyarray R) (kernel : Kern R) (lik : Likelihood R)
    (im : option (InferenceMethod R)) (nm : string)
    (md : option (metadata R)) :
  ndim (arr Xa) = 2 ->
  ndim (arr Ya) = 2 ->
  shape_rows (shape_of (arr Xa)) <> shape_rows (shape_of (arr Ya)) ->
  __init__ exact_inf ep_inf Xa Ya kernel lik im nm md
  = (Raise AssertionError, []).
Proof.
  unfold ndim. intros HX HY Hne.
  destruct (shape_of (arr Xa)) as [|?|n d] eqn:EX; try discriminate.
  destruct (shape_of (arr Ya)) as [|?|n' p] eqn:EY; try discriminate.
  now apply (init_rows_differ _ _ _ _ _ _ _ _ _ n d n' p).
Qed.

(** C6. When the constructor is called without an inference method and
    returns a model, the model's inference method is
    [ExactGaussianInference] exactly when the likelihood is an instance
    of [Gaussian] or of [MixedNoise], and [EP] for every other
    likelihood; choosing [EP] is what the constructor prints. *)
Theorem default_inference_method
    (Xa Ya : pyarray R) (kernel : Kern R) (lik : Likelihood R)
    (nm : string) (md : option (metadata R)) (g : GP R)
    (out : list (event R)) :
  __init__ exact_inf ep_inf Xa Ya kernel lik None nm md = (Ok g, out) ->
  (isinstance (lik_classes lik) "Gaussian" = true
   \/ isinstance (lik_classes lik) "MixedNoise" = true ->
   inference_method g = ExactGaussianInference exact_inf /\ out = [])
  /\ (isinstance (lik_classes lik) "Gaussian" = false ->
      isinstance (lik_classes lik) "MixedNoise" = false ->
      inference_method g = EP ep_inf
      /\ out = [EvPrint ["defaulting to "; "EP"; "for latent function inference"]])
  /\ (inf_class (inference_method g) = "ExactGaussianInference"
      <-> isinstance (lik_classes lik) "Gaussian" = true
          \/ isinstance (lik_classes lik) "MixedNoise" = true).
Proof.
  intros E. apply init_inv in E as (_ & _ & _ & E).
  unfold default_inference in E.
  destruct (isinstance (lik_classes lik) "Gaussian") eqn:EG;
    destruct (isinstance (lik_classes lik) "MixedNoise") eqn:EM;
    cbn in E; injection E as -> ->; cbn;
    repeat split; intros; try discriminate; try tauto; intuition discriminate.
Qed.

(** C10. For two-dimensional [X] and [Y] with the same number of rows, a
    kernel that is an instance of [Kern] and a likelihood that is an
    instance of [Likelihood], the constructor returns a model holding
    that kernel, whatever input dimension the kernel declares: the
    kernel's [input_dim] is never compared with the column count of [X],
    which becomes the model's [input_dim]. *)
Theorem construction_ignores_kernel_input_dim
    (Xa Ya : pyarray R) (kernel : Kern R) (lik : Likelihood R)
    (im : option (InferenceMethod R)) (nm : string)
    (md : option (metadata R)) (n d p : nat) :
  shape_of (arr Xa) = Sh2 n d ->
  shape_of (arr Ya) = Sh2 n p ->
  isinstance (kern_classes kernel) "Kern" = true ->
  isinstance (lik_classes lik) "Likelihood" = true ->
  exists g out,
    __init__ exact_inf ep_inf Xa Ya kernel lik im nm md = (Ok g, out)
    /\ kern g = kernel
    /\ input_dim g = d.
Proof.
  intros EX EY Hk Hl.
  destruct (init_ok exact_inf ep_inf Xa Ya kernel lik im nm md n d p EX EY Hk Hl)
    as (g & out & E & Ek & _ & _ & _ & _ & Ed & _).
  now exists g, out.
Qed.
End Claims.

(** * The properties on the concrete models *)

Lemma constructed_model1 (w : Z) :
  __init__ (fixed_inference 1) (fixed_inference 1) X1 Y1 (linear_kern 1)
    gaussian_likelihood (Some (fixed_method w)) "gp" None
  = (Ok (model1 w), []).
Proof. reflexivity. Qed.

Lemma fresh1_recomputed (w : Z) :
  fst (parameters_changed (stale1 w)) = Ok tt
  /\ posterior (self (fresh1 w)) = Some (posterior1 w)
  /\ kern (self (fresh1 w)) = set_kern_store [0%Z] (linear_kern 1)
  /\ likelihood (self (fresh1 w)) = gaussian_likelihood.
Proof. repeat split. Qed.

Lemma linear_kern_pure (d : nat) (s : list Z) :
  kern_queries_pure (set_kern_store s (linear_kern d)).
Proof.
  split; cbn; intros; unfold linear_K, linear_Kdiag;
    now destruct (shape_cols (shape_of A) =? d).
Qed.

Lemma gaussian_likelihood_pure (classes : list string) (noise : Z) :
  predictive_values_pure (noise_likelihood classes noise).
Proof.
  intros s mu var fc md. cbn. unfold gaussian_predictive_values.
  now destruct fc; match goal with |- context [broadcast ?o ?a ?b] =>
                     destruct (broadcast o a b) end.
Qed.

Lemma fresh1_pure (w : Z) : collaborators_pure (self (fresh1 w)).
Proof.
  split.
  - apply (linear_kern_pure 1 [0%Z]).
  - apply (gaussian_likelihood_pure _ 0%Z).
Qed.

(** The kernel that refuses one-column inputs was accepted at construction;
    the refusal surfaces at the first covariance evaluation. *)
Example mismatched_kernel_fails_at_prediction :
  fst (_raw_predict Xnew2 false fresh_mismatched) = Raise ValueError
  /\ fst (_raw_predict Xnew2 true fresh_mismatched) = Raise ValueError.
Proof. split; vm_compute; reflexivity. Qed.

Example gaussian_defaults_to_exact :
  __init__ (fixed_inference 1) (fixed_inference 2) X1 Y1 (linear_kern 1)
    gaussian_likelihood None "gp" None
  = (Ok (model (linear_kern 1) gaussian_likelihood
           (ExactGaussianInference (fixed_inference 1))), []).
Proof. reflexivity. Qed.

Example mixed_noise_defaults_to_exact :
  __init__ (fixed_inference 1) (fixed_inference 2) X1 Y1 (linear_kern 1)
    mixed_noise_likelihood None "gp" None
  = (Ok (model (linear_kern 1) mixed_noise_likelihood
           (ExactGaussianInference (fixed_inference 1))), []).
Proof. reflexivity. Qed.

(** C1. On the noise-free linear model with one training point
    ([X = [[1]]], [Y = [[2]]], [woodbury_inv = [[1]]]) and the new inputs
    [[2], [3]], the kernel answers [K(Xs,X) = [[2],[3]]] and
    [K(Xs,Xs) = [[4,6],[6,9]]]; [_raw_predict(Xs, full_cov=True)] returns
    as variance [[4,6],[6,9]], the variance-reduction term alone, whereas
    [K(Xs,Xs) − K(Xs,X)·woodbury_inv·K(X,Xs)] is the zero matrix. *)
Theorem full_cov_variance_lacks_prior_term :
  posterior (self (fresh1 1)) = Some (posterior1 1)
  /\ fst (K (kern (self (fresh1 1))) [0%Z] Xnew2 (Some (X (self (fresh1 1)))))
     = Ok Ks2
  /\ fst (K (kern (self (fresh1 1))) [0%Z] Xnew2 None) = Ok Kss2
  /\ fst (_raw_predict Xnew2 true (fresh1 1))
     = Ok (mat 2 1 [4; 6]%Z, mat 2 2 [4; 6; 6; 9]%Z)
  /\ reduction_full 2 1 (woodbury_inv (posterior1 1)) Ks2
     = mat 2 2 [4; 6; 6; 9]%Z
  /\ spec_var_full 2 1 Kss2 (woodbury_inv (posterior1 1)) Ks2
     = mat 2 2 [0; 0; 0; 0]%Z.
Proof. repeat split; vm_compute; reflexivity. Qed.

(** C2. On the same model and inputs, the diagonal of the variance returned
    with [full_cov=True] is [[4],[9]] while the variance returned with
    [full_cov=False] is [[0],[0]]. *)
Theorem full_cov_diagonal_differs_from_diagonal_path :
  exists mu vfull vdiag,
    fst (_raw_predict Xnew2 true (fresh1 1)) = Ok (mu, vfull)
    /\ fst (_raw_predict Xnew2 false (fresh1 1)) = Ok (mu, vdiag)
    /\ diag_col 2 vfull = mat 2 1 [4; 9]%Z
    /\ vdiag = mat 2 1 [0; 0]%Z
    /\ diag_col 2 vfull <> vdiag.
Proof.
  exists (mat 2 1 [4; 6]%Z), (mat 2 2 [4; 6; 6; 9]%Z), (mat 2 1 [0; 0]%Z).
  repeat split; try (vm_compute; reflexivity).
  vm_compute. discriminate.
Qed.

(** C3, a failing instance. With [woodbury_inv = [[2]]] the diagonal-only path
    returns the variance column [[-4],[-9]]: the entries are negative, no
    floor has been applied. *)
Lemma raw_predict_diagonal_negative :
  fst (_raw_predict Xnew2 false (fresh1 2))
  = Ok (mat 2 1 [4; 6]%Z, mat 2 1 [-4; -9]%Z)
  /\ (get2 (mat 2 1 [-4; -9]%Z) 0 0 < 0)%Z
  /\ (get2 (mat 2 1 [-4; -9]%Z) 1 0 < 0)%Z.
Proof. repeat split; vm_compute; reflexivity. Qed.

(** C3, as the code has it. The diagonal-only path of [_raw_predict] applies no
    clamp: under the shape conditions of C7, every entry of the variance
    column it returns is exactly [Kd_i − Σ_j (WiKx ⊙ Kx)_(j,i)], and is
    therefore negative whenever the reduction term exceeds the prior
    variance [Kd_i]. *)
Theorem raw_predict_diagonal_unclamped
    (st : state Z) (Xnew Ks Kd : ndarray Z) (post : Posterior Z)
    (M N : nat) (s1 s2 : list Z) :
  K (kern (self st)) (kern_store (kern (self st))) Xnew (Some (X (self st)))
  = (Ok Ks, s1) ->
  shape_of Ks = Sh2 M N ->
  posterior (self st) = Some post ->
  shape_of (woodbury_inv post) = Sh2 N N ->
  ((exists P, shape_of (woodbury_vector post) = Sh2 N P)
   \/ shape_of (woodbury_vector post) = Sh1 N) ->
  Kdiag (kern (self st)) s1 Xnew = (Ok Kd, s2) ->
  shape_of Kd = Sh1 M ->
  exists mu var,
    fst (_raw_predict Xnew false st) = Ok (mu, var)
    /\ shape_of var = Sh2 M 1
    /\ forall i, i < M ->
         get2 var i 0
         = (get1 Kd i - spec_reduction_diag N (woodbury_inv post) Ks i)%Z
         /\ ((get1 Kd i < spec_reduction_diag N (woodbury_inv post) Ks i)%Z ->
             (get2 var i 0 < 0)%Z).
Proof.
  intros HK HKs Hpost HWi Hwv HKd HKds.
  eexists _, _. split; [|split].
  - exact (raw_predict_diag_run st Xnew Ks post M N s1
             HK HKs Hpost HWi Hwv Kd s2 HKd HKds).
  - reflexivity.
  - intros i Hi. unfold spec_var_diag. rewrite get2_tab2 by lia.
    cbn [s_sub Z_Scalar]. split; [reflexivity | lia].
Qed.

Lemma raw_predict_diagonal_unclamped_witness :
  K (kern (self (fresh1 2))) (kern_store (kern (self (fresh1 2)))) Xnew2
    (Some (X (self (fresh1 2)))) = (Ok Ks2, [0%Z])
  /\ shape_of Ks2 = Sh2 2 1
  /\ posterior (self (fresh1 2)) = Some (posterior1 2)
  /\ shape_of (woodbury_inv (posterior1 2)) = Sh2 1 1
  /\ ((exists P, shape_of (woodbury_vector (posterior1 2)) = Sh2 1 P)
      \/ shape_of (woodbury_vector (posterior1 2)) = Sh1 1)
  /\ Kdiag (kern (self (fresh1 2))) [0%Z] Xnew2 = (Ok Kd2, [0%Z])
  /\ shape_of Kd2 = Sh1 2
  /\ exists mu var,
       fst (_raw_predict Xnew2 false (fresh1 2)) = Ok (mu, var)
       /\ shape_of var = Sh2 2 1
       /\ forall i, i < 2 ->
            get2 var i 0
            = (get1 Kd2 i
               - spec_reduction_diag 1 (woodbury_inv (posterior1 2)) Ks2 i)%Z
            /\ ((get1 Kd2 i
                 < spec_reduction_diag 1 (woodbury_inv (posterior1 2)) Ks2 i)%Z ->
                (get2 var i 0 < 0)%Z).
Proof.
  assert (Hwv : (exists P, shape_of (woodbury_vector (posterior1 2)) = Sh2 1 P)
                \/ shape_of (woodbury_vector (posterior1 2)) = Sh1 1)
    by (left; exists 1; reflexivity).
  repeat (split; [first [reflexivity | exact Hwv]|]).
  exact (raw_predict_diagonal_unclamped (fresh1 2) Xnew2 Ks2 Kd2 (posterior1 2)
           2 1 [0%Z] [0%Z] eq_refl eq_refl eq_refl eq_refl Hwv eq_refl eq_refl).
Defined.

Lemma raw_predict_diagonal_formula_witness :
  K (kern (self (fresh1 1))) (kern_store (kern (self (fresh1 1)))) Xnew2
    (Some (X (self (fresh1 1)))) = (Ok Ks2, [0%Z])
  /\ shape_of Ks2 = Sh2 2 1
  /\ posterior (self (fresh1 1)) = Some (posterior1 1)
  /\ shape_of (woodbury_inv (posterior1 1)) = Sh2 1 1
  /\ ((exists P, shape_of (woodbury_vector (posterior1 1)) = Sh2 1 P)
      \/ shape_of (woodbury_vector (posterior1 1)) = Sh1 1)
  /\ Kdiag (kern (self (fresh1 1))) [0%Z] Xnew2 = (Ok Kd2, [0%Z])
  /\ shape_of Kd2 = Sh1 2
  /\ fst (_raw_predict Xnew2 false (fresh1 1))
     = Ok (spec_mean 2 1 Ks2 (woodbury_vector (posterior1 1)),
           spec_var_diag 2 1 Kd2 (woodbury_inv (posterior1 1)) Ks2).
Proof.
  assert (Hwv : (exists P, shape_of (woodbury_vector (posterior1 1)) = Sh2 1 P)
                \/ shape_of (woodbury_vector (posterior1 1)) = Sh1 1)
    by (left; exists 1; reflexivity).
  repeat (split; [first [reflexivity | exact Hwv]|]).
  exact (raw_predict_diagonal_formula (fresh1 1) Xnew2 Ks2 Kd2 (posterior1 1)
           2 1 [0%Z] [0%Z] eq_refl eq_refl eq_refl eq_refl Hwv eq_refl eq_refl).
Defined.

(** The formulas of C7 evaluated on that model. *)
Example diagonal_formula_values :
  spec_mean 2 1 Ks2 (woodbury_vector (posterior1 1)) = mat 2 1 [4; 6]%Z
  /\ spec_var_diag 2 1 Kd2 (woodbury_inv (posterior1 1)) Ks2 = mat 2 1 [0; 0]%Z.
Proof. split; reflexivity. Qed.

Lemma predict_twice_identical_witness :
  collaborators_pure (self (fresh1 1))
  /\ fst (predict Xnew2 false (Some censored)
            (snd (predict Xnew2 false (Some censored) (fresh1 1))))
     = fst (predict Xnew2 false (Some censored) (fresh1 1))
  /\ self (snd (predict Xnew2 false (Some censored) (fresh1 1)))
     = self (fresh1 1)
  /\ self (snd (predict Xnew2 false (Some censored)
                  (snd (predict Xnew2 false (Some censored) (fresh1 1)))))
     = self (fresh1 1).
Proof.
  split; [exact (fresh1_pure 1)|].
  exact (predict_twice_identical (fresh1 1) Xnew2 false (Some censored)
           (fresh1_pure 1)).
Defined.

(** C4, a failing instance. The model just constructed on [X1], [Y1]: the call
    fails, but the exception is not a [StaleStateError]. *)
Lemma log_likelihood_error_is_not_StaleStateError :
  __init__ (fixed_inference 1) (fixed_inference 1) X1 Y1 (linear_kern 1)
    gaussian_likelihood (Some (fixed_method 1)) "gp" None
  = (Ok (model1 1), [])
  /\ fst (log_likelihood (stale1 1)) = Raise "AttributeError"
  /\ fst (log_likelihood (stale1 1)) <> Raise "StaleStateError".
Proof. repeat split. discriminate. Qed.

Lemma log_likelihood_before_inference_witness :
  __init__ (fixed_inference 1) (fixed_inference 1) X1 Y1 (linear_kern 1)
    gaussian_likelihood (Some (fixed_method 1)) "gp" None
  = (Ok (model1 1), [])
  /\ log_likelihood (State (model1 1) [] stub_random)
     = (Raise AttributeError, State (model1 1) [] stub_random).
Proof.
  split; [reflexivity|].
  exact (log_likelihood_before_inference (fixed_inference 1) (fixed_inference 1)
           X1 Y1 (linear_kern 1) gaussian_likelihood (Some (fixed_method 1))
           "gp" None (model1 1) [] [] stub_random eq_refl).
Defined.

(** Once [parameters_changed] has run, the cached value is returned. *)
Example log_likelihood_after_inference :
  fst (log_likelihood (fresh1 1)) = Ok 0%Z.
Proof. reflexivity. Qed.

(** C5, a failing instance. [X] with 5 rows and [Y] with 4 rows: construction
    fails, but the exception is not a [ShapeMismatchError]. *)
Lemma row_mismatch_error_is_not_ShapeMismatchError :
  fst (__init__ (fixed_inference 1) (fixed_inference 1) X5 Y4 (linear_kern 1)
         gaussian_likelihood None "gp" None)
  = Raise "AssertionError"
  /\ fst (__init__ (fixed_inference 1) (fixed_inference 1) X5 Y4 (linear_kern 1)
            gaussian_likelihood None "gp" None)
     <> Raise "ShapeMismatchError".
Proof. split; [reflexivity | discriminate]. Qed.

Lemma construction_rejects_row_mismatch_witness :
  ndim (arr X5) = 2
  /\ ndim (arr Y4) = 2
  /\ shape_rows (shape_of (arr X5)) <> shape_rows (shape_of (arr Y4))
  /\ __init__ (fixed_inference 1) (fixed_inference 1) X5 Y4 (linear_kern 1)
       gaussian_likelihood None "gp" None
     = (Raise AssertionError, []).
Proof.
  assert (Hne : shape_rows (shape_of (arr X5)) <> shape_rows (shape_of (arr Y4)))
    by (cbn; lia).
  repeat (split; [first [reflexivity | exact Hne]|]).
  exact (construction_rejects_row_mismatch (fixed_inference 1) (fixed_inference 1)
           X5 Y4 (linear_kern 1) gaussian_likelihood None "gp" None
           eq_refl eq_refl Hne).
Defined.

Lemma default_inference_method_witness :
  __init__ (fixed_inference 1) (fixed_inference 2) X1 Y1 (linear_kern 1)
    bernoulli_likelihood None "gp" None
  = (Ok (model (linear_kern 1) bernoulli_likelihood (EP (fixed_inference 2))),
     [EvPrint ["defaulting to "; "EP"; "for latent function inference"]])
  /\ (isinstance (lik_classes bernoulli_likelihood) "Gaussian" = true
      \/ isinstance (lik_classes bernoulli_likelihood) "MixedNoise" = true ->
      inference_method
        (model (linear_kern 1) bernoulli_likelihood (EP (fixed_inference 2)))
      = ExactGaussianInference (fixed_inference 1)
      /\ [EvPrint ["defaulting to "; "EP"; "for latent function inference"]]
         = @nil (event Z))
  /\ (isinstance (lik_classes bernoulli_likelihood) "Gaussian" = false ->
      isinstance (lik_classes bernoulli_likelihood) "MixedNoise" = false ->
      inference_method
        (model (linear_kern 1) bernoulli_likelihood (EP (fixed_inference 2)))
      = EP (fixed_inference 2)
      /\ [EvPrint ["defaulting to "; "EP"; "for latent function inference"]]
         = [EvPrint (R := Z)
              ["defaulting to "; "EP"; "for latent function inference"]])
  /\ (inf_class
        (inference_method
           (model (linear_kern 1) bernoulli_likelihood (EP (fixed_inference 2))))
      = "ExactGaussianInference"
      <-> isinstance (lik_classes bernoulli_likelihood) "Gaussian" = true
          \/ isinstance (lik_classes bernoulli_likelihood) "MixedNoise" = true).
Proof.
  split; [reflexivity|].
  exact (default_inference_method (fixed_inference 1) (fixed_inference 2)
           X1 Y1 (linear_kern 1) bernoulli_likelihood "gp" None
           (model (linear_kern 1) bernoulli_likelihood (EP (fixed_inference 2)))
           [EvPrint ["defaulting to "; "EP"; "for latent function inference"]]
           eq_refl).
Defined.

Lemma construction_ignores_kernel_input_dim_witness :
  shape_of (arr X1) = Sh2 1 1
  /\ shape_of (arr Y1) = Sh2 1 1
  /\ isinstance (kern_classes (linear_kern 3)) "Kern" = true
  /\ isinstance (lik_classes gaussian_likelihood) "Likelihood" = true
  /\ exists g out,
       __init__ (fixed_inference 1) (fixed_inference 1) X1 Y1 (linear_kern 3)
         gaussian_likelihood None "gp" None = (Ok g, out)
       /\ kern g = linear_kern 3
       /\ input_dim g = 1.
Proof.
  repeat (split; [reflexivity|]).
  exact (construction_ignores_kernel_input_dim
           (fixed_inference 1) (fixed_inference 1) X1 Y1 (linear_kern 3)
           gaussian_likelihood None "gp" None 1 1 1
           eq_refl eq_refl eq_refl eq_refl).
Defined.

(** The kernel of that model declares three input columns, the data has one. *)
Example mismatched_kernel_declares_three :
  kern_input_dim (linear_kern 3) = 3 /\ shape_cols (shape_of (arr X1)) = 1.
Proof. split; reflexivity. Qed.

(** The calls recorded by [predict] on the fresh model, with a metadata
    argument, and by [parameters_changed] on the constructed one. *)
Example calls_of_predict :
  calls (snd (predict Xnew2 false (Some censored) (fresh1 1)))
  = calls (fresh1 1)
    ++ [EvK Xnew2 (Some (X (self (fresh1 1))));
        EvKdiag Xnew2;
        EvPredictiveValues (mat 2 1 [4; 6]%Z) (mat 2 1 [0; 0]%Z) false
          (Some censored)].
Proof. vm_compute. reflexivity. Qed.

Example calls_of_parameters_changed :
  calls (fresh1 1)
  = [EvInference (X (model1 1)) (Y (model1 1)) ∅;
     EvLikUpdateGradients (vec [0%Z]);
     EvKernUpdateGradients (mat 1 1 [0%Z]) (X (model1 1))].
Proof. vm_compute. reflexivity. Qed.

(** * Further properties of the methods *)

Section Preservation.
Context {R : Type} `{!Scalar R}.
Context {B : Type} (f : state R -> B).

Lemma preserves_unchanged {A} (m : M R A) :
  (forall st, snd (m st) = st) -> preserves f m.
Proof. intros E st. now rewrite E. Qed.

Lemma preserves_ret {A} (a : A) : preserves f (ret a).
Proof. now apply preserves_unchanged. Qed.

Lemma preserves_raise {A} (e : exn) : preserves f (raise (A := A) e).
Proof. now apply preserves_unchanged. Qed.

Lemma preserves_lift {A} (o : outcome A) : preserves f (lift o).
Proof. now apply preserves_unchanged. Qed.

Lemma preserves_getattr {A} (h : GP R -> A) : preserves f (getattr h).
Proof. now apply preserves_unchanged. Qed.

Lemma preserves_getattr_opt {A} (h : GP R -> option A) :
  preserves f (getattr_opt h).
Proof.
  apply preserves_unchanged. intros st. unfold getattr_opt.
  now destruct (h (self st)).
Qed.

Lemma preserves_getitem (d : gmap string (ndarray R)) (key : string) :
  preserves f (getitem d key).
Proof.
  unfold getitem. destruct (d !! key); [apply preserves_ret | apply preserves_raise].
Qed.

Lemma preserves_bind {A C} (m : M R A) (k : A -> M R C) :
  preserves f m -> (forall a, preserves f (k a)) -> preserves f (bind m k).
Proof.
  intros Hm Hk st. unfold bind. specialize (Hm st).
  destruct (m st) as [[a | e] st']; cbn in *; [|exact Hm].
  now rewrite Hk.
Qed.

Lemma preserves_log (e : event R) : ignores_calls f -> preserves f (log e).
Proof. intros Hc [g c r]. apply Hc. Qed.

Lemma preserves_set_inferred (p : Posterior R) (l : R)
    (gd : gmap string (ndarray R)) :
  ignores_cache f -> preserves f (modify_self (set_inferred p l gd)).
Proof. intros Hi [g c r]. apply Hi. Qed.

Lemma preserves_call_kern {A} (e : event R)
    (F : Kern R -> list R -> outcome A * list R) :
  ignores_calls f -> ignores_kern f -> preserves f (call_kern e F).
Proof.
  intros Hc Hk [g c r]. unfold call_kern; cbn.
  destruct (F (kern g) (kern_store (kern g))) as [o s']; cbn.
  now rewrite (Hc _ _ c), Hk.
Qed.

Lemma preserves_call_likelihood {A} (e : event R)
    (F : Likelihood R -> list R -> outcome A * list R) :
  ignores_calls f -> ignores_likelihood f -> preserves f (call_likelihood e F).
Proof.
  intros Hc Hl [g c r]. unfold call_likelihood; cbn.
  destruct (F (likelihood g) (lik_store (likelihood g))) as [o s']; cbn.
  now rewrite (Hc _ _ c), Hl.
Qed.

Lemma preserves_call_multivariate_normal (mean cov : ndarray R) (sz : Z) :
  ignores_calls f -> ignores_generator f ->
  preserves f (call_multivariate_normal mean cov sz).
Proof.
  intros Hc Hg [g c r]. unfold call_multivariate_normal; cbn.
  destruct (multivariate_normal r (rng_state r) mean cov sz) as [o s']; cbn.
  now rewrite (Hc _ _ c), (Hg _ _ _ r).
Qed.
End Preservation.

Ltac ignores_by_computation := solve [red; intros; reflexivity].

Ltac preserves_observation :=
  repeat first
    [ apply preserves_ret | apply preserves_raise | apply preserves_lift
    | apply preserves_getattr | apply preserves_getattr_opt
    | apply preserves_getitem
    | apply preserves_log; ignores_by_computation
    | apply preserves_set_inferred; ignores_by_computation
    | apply preserves_call_kern; ignores_by_computation
    | apply preserves_call_likelihood; ignores_by_computation
    | apply preserves_call_multivariate_normal; ignores_by_computation
    | apply preserves_bind; [|intros ?]
    | split_method_body ].

Section Frames.
Context {R : Type} `{!Scalar R}.

(** X9.  Whatever the kernel, the likelihood and the sampler do to their own
    stores, the prediction methods and [log_likelihood] assign no attribute
    of the model: the data, the stored metadata, the inference method and
    the cached posterior, log marginal likelihood and gradients are after
    the call what they were before it, also when the call fails. *)
Theorem prediction_assigns_no_attribute
    (Xnew : ndarray R) (full_cov : bool) (q : list Q) (sz : Z)
    (md : option (metadata R)) :
  let observed := fun st : state R => (data_part (self st), cache_part (self st)) in
  preserves observed (_raw_predict Xnew full_cov)
  /\ preserves observed (predict Xnew full_cov md)
  /\ preserves observed (predict_quantiles Xnew q md)
  /\ preserves observed (posterior_samples_f Xnew sz full_cov)
  /\ preserves observed (posterior_samples Xnew sz full_cov md)
  /\ preserves observed log_likelihood.
Proof.
  intros observed.
  assert (Hraw : forall fc, preserves observed (_raw_predict Xnew fc))
    by (intros fc; unfold _raw_predict; preserves_observation).
  assert (Hf : preserves observed (posterior_samples_f Xnew sz full_cov)).
  { unfold posterior_samples_f. apply preserves_bind; [apply Hraw|].
    intros ?. preserves_observation. }
  repeat split.
  - apply Hraw.
  - unfold predict. apply preserves_bind; [apply Hraw|].
    intros ?. preserves_observation.
  - unfold predict_quantiles. apply preserves_bind; [apply Hraw|].
    intros ?. preserves_observation.
  - exact Hf.
  - unfold posterior_samples. apply preserves_bind; [exact Hf|].
    intros ?. preserves_observation.
  - unfold log_likelihood. preserves_observation.
Qed.

(** X8.  [parameters_changed] assigns the cached results and passes gradients
    to the kernel and the likelihood, and assigns nothing else: the name,
    the data, the recorded shapes, the stored metadata, the inference
    method and the parameter list are after the call what they were before
    it, whether it succeeds or fails, so that recorded shapes that agree
    with the data still agree. *)
Theorem parameters_changed_keeps_data (st : state R) :
  data_part (self (snd (parameters_changed st))) = data_part (self st)
  /\ (shapes_consistent (self st) ->
      shapes_consistent (self (snd (parameters_changed st)))).
Proof.
  assert (Hd : preserves (fun s : state R => data_part (self s)) parameters_changed)
    by (unfold parameters_changed; preserves_observation).
  split; [apply Hd|].
  specialize (Hd st). cbn beta in Hd. unfold data_part in Hd.
  unfold shapes_consistent. intros [HX HY].
  injection Hd as _ EX En Ed EY Ep _ _ _.
  now rewrite EX, En, Ed, EY, Ep.
Qed.
End Frames.

Section Construction.
Context {R : Type} `{!Scalar R}.
Variables exact_inf ep_inf :
  Kern R -> pyarray R -> Likelihood R -> pyarray R -> metadata R ->
  outcome (Posterior R * R * gmap string (ndarray R)).

(** X1.  The constructor returns a model exactly when [X] and [Y] are
    two-dimensional with the same number of rows, the kernel is an instance
    of [Kern] and the likelihood an instance of [Likelihood]; in every
    other case it raises [AssertionError], and no other exception, before
    anything is printed. *)
Theorem construction_succeeds_iff_asserted
    (Xa Ya : pyarray R) (kernel : Kern R) (lik : Likelihood R)
    (im : option (InferenceMethod R)) (nm : string)
    (md : option (metadata R)) :
  match __init__ exact_inf ep_inf Xa Ya kernel lik im nm md with
  | (Ok g, out) => init_accepts Xa Ya kernel lik = true
  | (Raise e, out) =>
      init_accepts Xa Ya kernel lik = false /\ e = AssertionError /\ out = []
  end.
Proof.
  unfold __init__, init_accepts, assert_, unpack2, shape0, ndim.
  assert (EX : shape_of (arr (if is_observable Xa then Xa
                              else ObservableArray_new Xa))
               = shape_of (arr Xa))
    by now destruct (is_observable Xa).
  rewrite EX. cbn [arr ObservableArray_new].
  destruct (shape_of (arr Xa)) as [|n|n d]; cbn; try (now repeat split).
  destruct (shape_of (arr Ya)) as [|n'|n' p]; cbn; try (now repeat split).
  destruct (n' =? n); cbn; try (now repeat split).
  destruct (isinstance (kern_classes kernel) "Kern"); cbn;
    try (now repeat split).
  destruct (isinstance (lik_classes lik) "Likelihood"); cbn;
    try (now repeat split).
  now destruct (match im with
                | Some im0 => (im0, [])
                | None => default_inference exact_inf ep_inf lik
                end).
Qed.

(** X2.  A model returned by the constructor holds the arrays it was given
    ([X] wrapped as an [ObservableArray] unless it already is one or is a
    [VariationalPosterior], [Y] always wrapped), records their shapes, holds
    the given kernel, likelihood and name, stores the given metadata or the
    empty dictionary when none (or an empty one) was given, has no cached
    posterior, likelihood value or gradients, and uses a supplied inference
    method as it is, printing nothing. *)
Theorem constructed_model_attributes
    (Xa Ya : pyarray R) (kernel : Kern R) (lik : Likelihood R)
    (im : option (InferenceMethod R)) (nm : string)
    (md : option (metadata R)) (g : GP R) (out : list (event R)) :
  __init__ exact_inf ep_inf Xa Ya kernel lik im nm md = (Ok g, out) ->
  shapes_consistent g
  /\ arr (X g) = arr Xa
  /\ arr (Y g) = arr Ya
  /\ arr_class (X g) = (if is_observable Xa then arr_class Xa else ObservableArray)
  /\ arr_class (Y g) = ObservableArray
  /\ Y_metadata g = or_empty md
  /\ kern g = kernel
  /\ likelihood g = lik
  /\ name g = nm
  /\ parameters g = [ParamKern; ParamLikelihood]
  /\ cache_part g = (None, None, None)
  /\ (forall i, im = Some i -> inference_method g = i /\ out = []).
Proof.
  unfold __init__, assert_, unpack2, shape0, shapes_consistent.
  destruct (ndim (arr Xa) =? 2); [|discriminate].
  assert (EX : arr (if is_observable Xa then Xa else ObservableArray_new Xa)
               = arr Xa)
    by now destruct (is_observable Xa).
  assert (EC : arr_class (if is_observable Xa then Xa else ObservableArray_new Xa)
               = if is_observable Xa then arr_class Xa else ObservableArray)
    by now destruct (is_observable Xa).
  revert EX EC.
  generalize (if is_observable Xa then Xa else ObservableArray_new Xa).
  intros selfX EX EC. rewrite EX.
  destruct (shape_of (arr Xa)) as [|?|n d] eqn:EsX; try discriminate.
  destruct (ndim (arr Ya) =? 2); [|discriminate].
  cbn [arr ObservableArray_new].
  destruct (shape_of (arr Ya)) as [|n'|n' p] eqn:EsY; try discriminate.
  - destruct (n' =? n); discriminate.
  - destruct (Nat.eqb_spec n' n) as [->|]; [|discriminate].
    destruct (isinstance (kern_classes kernel) "Kern"); [|discriminate].
    destruct (isinstance (lik_classes lik) "Likelihood"); [|discriminate].
    destruct im as [i|].
    + intros E. injection E as <- <-. cbn.
      rewrite EX, EsX, EsY.
      repeat split; try assumption. all: congruence.
    + destruct (default_inference exact_inf ep_inf lik) as [i printed].
      intros E. injection E as <- <-. cbn.
      rewrite EX, EsX, EsY.
      repeat split; try assumption. all: discriminate.
Qed.
End Construction.

Section Recomputation.
Context {R : Type} `{!Scalar R}.

Lemma call_likelihood_run {A} (e : event R)
    (F : Likelihood R -> list R -> outcome A * list R) (st : state R)
    (o : outcome A) (s' : list R) :
  F (likelihood (self st)) (lik_store (likelihood (self st))) = (o, s') ->
  call_likelihood e F st
  = (o, State (set_likelihood (set_lik_store s' (likelihood (self st))) (self st))
              (calls st ++ [e]) (np_random st)).
Proof. intros E. unfold call_likelihood. now rewrite E. Qed.

Lemma getitem_run (d : gmap string (ndarray R)) (key : string)
    (v : ndarray R) (st : state R) :
  d !! key = Some v -> getitem d key st = (Ok v, st).
Proof. intros E. unfold getitem. now rewrite E. Qed.

Lemma getitem_missing (d : gmap string (ndarray R)) (key : string)
    (st : state R) :
  d !! key = None -> getitem d key st = (Raise KeyError, st).
Proof. intros E. unfold getitem. now rewrite E. Qed.

Variable st : state R.

(** The call of the inference method that [parameters_changed] makes. *)
Local Abbreviation inferred :=
  (inference (inference_method (self st)) (kern (self st)) (X (self st))
     (likelihood (self st)) (Y (self st)) (Y_metadata (self st))).
Local Abbreviation inference_call :=
  (EvInference (X (self st)) (Y (self st)) (Y_metadata (self st))).

(** X3.  When the inference method returns a posterior, a log marginal
    likelihood and a gradient dictionary holding both gradients, and both
    gradient routines return, [parameters_changed] stores the three
    results, passes [dL_dthetaL] to the likelihood and then [dL_dK] with
    the inputs to the kernel (the kernel and the likelihood keep the stores
    those routines leave), and makes exactly these three calls in this
    order; [log_likelihood()] then returns the new value. *)
Theorem parameters_changed_stores_and_forwards
    (p : Posterior R) (lml : R) (gd : gmap string (ndarray R))
    (dL_dthetaL dL_dK : ndarray R) (ls ks : list R) :
  inferred = Ok (p, lml, gd) ->
  gd !! "dL_dthetaL" = Some dL_dthetaL ->
  gd !! "dL_dK" = Some dL_dK ->
  update_gradients (likelihood (self st)) (lik_store (likelihood (self st)))
    dL_dthetaL = (Ok tt, ls) ->
  update_gradients_full (kern (self st)) (kern_store (kern (self st)))
    dL_dK (X (self st)) = (Ok tt, ks) ->
  parameters_changed st
  = (Ok tt,
     State (set_kern (set_kern_store ks (kern (self st)))
              (set_likelihood (set_lik_store ls (likelihood (self st)))
                 (set_inferred p lml gd (self st))))
           (calls st ++ [inference_call;
                         EvLikUpdateGradients dL_dthetaL;
                         EvKernUpdateGradients dL_dK (X (self st))])
           (np_random st))
  /\ fst (log_likelihood (snd (parameters_changed st))) = Ok lml.
Proof.
  intros Hinf H1 H2 Hl Hk.
  assert (E : parameters_changed st
    = (Ok tt,
       State (set_kern (set_kern_store ks (kern (self st)))
                (set_likelihood (set_lik_store ls (likelihood (self st)))
                   (set_inferred p lml gd (self st))))
             (calls st ++ [inference_call;
                           EvLikUpdateGradients dL_dthetaL;
                           EvKernUpdateGradients dL_dK (X (self st))])
             (np_random st))).
  { unfold parameters_changed.
    do 7 (erewrite bind_ok by reflexivity).
    erewrite bind_ok by (rewrite Hinf; apply lift_run).
    cbv iota beta.
    erewrite bind_ok by reflexivity.
    erewrite bind_ok by reflexivity.
    erewrite bind_ok by (apply getitem_run; exact H1).
    erewrite bind_ok by (apply call_likelihood_run; exact Hl).
    erewrite bind_ok by reflexivity.
    erewrite bind_ok by (apply getitem_run; exact H2).
    erewrite bind_ok by reflexivity.
    erewrite call_kern_run by exact Hk.
    cbn. now rewrite <- !app_assoc. }
  split; [exact E|]. now rewrite E.
Qed.

(** X4.  When the inference method raises, [parameters_changed] raises the same
    exception: the model, with its previous cached results, is left as it
    was, and no gradient is passed on. *)
Theorem parameters_changed_inference_fails (e : exn) :
  inferred = Raise e ->
  parameters_changed st
  = (Raise e, State (self st) (calls st ++ [inference_call]) (np_random st)).
Proof.
  intros Hinf. unfold parameters_changed.
  do 7 (erewrite bind_ok by reflexivity).
  erewrite bind_raise by (rewrite Hinf; apply lift_run).
  reflexivity.
Qed.

(** X5.  Once the inference method has returned, its three results are the
    model's cached results whatever happens next: a missing gradient or a
    failing gradient routine makes [parameters_changed] fail with the new
    posterior, log marginal likelihood and gradient dictionary already in
    place. *)
Theorem parameters_changed_replaces_cache_first
    (p : Posterior R) (lml : R) (gd : gmap string (ndarray R)) :
  inferred = Ok (p, lml, gd) ->
  cache_part (self (snd (parameters_changed st))) = (Some p, Some lml, Some gd).
Proof.
  intros Hinf. unfold parameters_changed.
  do 7 (erewrite bind_ok by reflexivity).
  erewrite bind_ok by (rewrite Hinf; apply lift_run).
  cbv iota beta.
  erewrite bind_ok by reflexivity.
  match goal with
  | |- context [snd (?m ?s)] =>
      assert (Hrest : preserves (fun z : state R => cache_part (self z)) m)
        by preserves_observation;
      rewrite (Hrest s)
  end.
  reflexivity.
Qed.

(** X6.  A gradient dictionary without the key [dL_dthetaL] makes
    [parameters_changed] fail with [KeyError] after the inference call and
    before any gradient routine is called. *)
Theorem parameters_changed_without_likelihood_gradient
    (p : Posterior R) (lml : R) (gd : gmap string (ndarray R)) :
  inferred = Ok (p, lml, gd) ->
  gd !! "dL_dthetaL" = None ->
  parameters_changed st
  = (Raise KeyError,
     State (set_inferred p lml gd (self st)) (calls st ++ [inference_call])
           (np_random st)).
Proof.
  intros Hinf H1. unfold parameters_changed.
  do 7 (erewrite bind_ok by reflexivity).
  erewrite bind_ok by (rewrite Hinf; apply lift_run).
  cbv iota beta.
  erewrite bind_ok by reflexivity.
  erewrite bind_ok by reflexivity.
  erewrite bind_raise by (apply getitem_missing; exact H1).
  reflexivity.
Qed.

(** X7.  A gradient dictionary without the key [dL_dK] makes
    [parameters_changed] fail with [KeyError] after the likelihood has
    received its gradient; the kernel's gradient routine is not called. *)
Theorem parameters_changed_without_kernel_gradient
    (p : Posterior R) (lml : R) (gd : gmap string (ndarray R))
    (dL_dthetaL : ndarray R) (ls : list R) :
  inferred = Ok (p, lml, gd) ->
  gd !! "dL_dthetaL" = Some dL_dthetaL ->
  update_gradients (likelihood (self st)) (lik_store (likelihood (self st)))
    dL_dthetaL = (Ok tt, ls) ->
  gd !! "dL_dK" = None ->
  parameters_changed st
  = (Raise KeyError,
     State (set_likelihood (set_lik_store ls (likelihood (self st)))
              (set_inferred p lml gd (self st)))
           (calls st ++ [inference_call; EvLikUpdateGradients dL_dthetaL])
           (np_random st)).
Proof.
  intros Hinf H1 Hl H2. unfold parameters_changed.
  do 7 (erewrite bind_ok by reflexivity).
  erewrite bind_ok by (rewrite Hinf; apply lift_run).
  cbv iota beta.
  erewrite bind_ok by reflexivity.
  erewrite bind_ok by reflexivity.
  erewrite bind_ok by (apply getitem_run; exact H1).
  erewrite bind_ok by (apply call_likelihood_run; exact Hl).
  erewrite bind_ok by reflexivity.
  erewrite bind_raise by (apply getitem_missing; exact H2).
  cbn. now rewrite <- !app_assoc.
Qed.
End Recomputation.


Section Prediction.
Context {R : Type} `{!Scalar R}.

Lemma raw_predict_before_inference (st : state R) (Xnew : ndarray R) (fc : bool) :
  posterior (self st) = None ->
  exists g',
    _raw_predict Xnew fc st
    = (Raise (match fst (K (kern (self st)) (kern_store (kern (self st)))
                           Xnew (Some (X (self st)))) with
              | Ok _ => AttributeError
              | Raise e => e
              end),
       State g' (calls st ++ [EvK Xnew (Some (X (self st)))]) (np_random st)).
Proof.
  intros Hp. unfold _raw_predict.
  erewrite bind_ok by reflexivity.
  destruct (K (kern (self st)) (kern_store (kern (self st))) Xnew
              (Some (X (self st)))) as [[Ks | e] s1] eqn:EK.
  - erewrite bind_ok by (apply call_kern_run; exact EK).
    eexists. unfold bind, getattr_opt. cbn. rewrite Hp. reflexivity.
  - eexists. erewrite bind_raise by (apply call_kern_run; exact EK).
    reflexivity.
Qed.

(** X10.  On a model without a posterior (none has been computed yet) every
    prediction method asks the kernel for [K(Xnew, X)] and then fails: with
    the kernel's exception if the kernel raised, with [AttributeError]
    otherwise.  The likelihood and the sampler are never called. *)
Theorem prediction_before_inference
    (st : state R) (Xnew : ndarray R) (full_cov : bool) (q : list Q)
    (sz : Z) (md : option (metadata R)) :
  posterior (self st) = None ->
  let failure :=
    match fst (K (kern (self st)) (kern_store (kern (self st)))
                 Xnew (Some (X (self st)))) with
    | Ok _ => AttributeError
    | Raise e => e
    end in
  let asked := calls st ++ [EvK Xnew (Some (X (self st)))] in
  (fst (_raw_predict Xnew full_cov st) = Raise failure
   /\ calls (snd (_raw_predict Xnew full_cov st)) = asked)
  /\ (fst (predict Xnew full_cov md st) = Raise failure
      /\ calls (snd (predict Xnew full_cov md st)) = asked)
  /\ (fst (predict_quantiles Xnew q md st) = Raise failure
      /\ calls (snd (predict_quantiles Xnew q md st)) = asked)
  /\ (fst (posterior_samples_f Xnew sz full_cov st) = Raise failure
      /\ calls (snd (posterior_samples_f Xnew sz full_cov st)) = asked)
  /\ (fst (posterior_samples Xnew sz full_cov md st) = Raise failure
      /\ calls (snd (posterior_samples Xnew sz full_cov md st)) = asked).
Proof.
  intros Hp failure asked.
  destruct (raw_predict_before_inference st Xnew full_cov Hp) as [g1 E1].
  destruct (raw_predict_before_inference st Xnew false Hp) as [g2 E2].
  fold failure in E1, E2. fold asked in E1, E2.
  assert (Ef : posterior_samples_f Xnew sz full_cov st
               = (Raise failure, State g1 asked (np_random st)))
    by (unfold posterior_samples_f; now erewrite bind_raise by exact E1).
  repeat split.
  - now rewrite E1.
  - now rewrite E1.
  - unfold predict. now erewrite bind_raise by exact E1.
  - unfold predict. now erewrite bind_raise by exact E1.
  - unfold predict_quantiles. now erewrite bind_raise by exact E2.
  - unfold predict_quantiles. now erewrite bind_raise by exact E2.
  - now rewrite Ef.
  - now rewrite Ef.
  - unfold posterior_samples. now erewrite bind_raise by exact Ef.
  - unfold posterior_samples. now erewrite bind_raise by exact Ef.
Qed.

(** X11.  When the posterior no longer fits the data (the kernel answers
    [K(Xnew, X)] with N columns but [woodbury_inv] does not have N
    columns), [_raw_predict] fails with the [ValueError] of the first matrix
    product, in either mode, after the one kernel call. *)
Theorem prediction_with_outdated_posterior
    (st : state R) (Xnew Ks : ndarray R) (post : Posterior R)
    (M N a b : nat) (s1 : list R) (full_cov : bool) :
  K (kern (self st)) (kern_store (kern (self st))) Xnew (Some (X (self st)))
  = (Ok Ks, s1) ->
  shape_of Ks = Sh2 M N ->
  posterior (self st) = Some post ->
  shape_of (woodbury_inv post) = Sh2 a b ->
  b <> N ->
  fst (_raw_predict Xnew full_cov st) = Raise ValueError
  /\ calls (snd (_raw_predict Xnew full_cov st))
     = calls st ++ [EvK Xnew (Some (X (self st)))].
Proof.
  intros HK HKs Hpost HWi Hne.
  assert (Hdot : np_dot (woodbury_inv post) (transpose Ks) = Raise ValueError).
  { unfold np_dot. rewrite HWi, (transpose_shape Ks M N HKs).
    now destruct (Nat.eqb_spec b N). }
  unfold _raw_predict.
  erewrite bind_ok by reflexivity.
  erewrite bind_ok by (apply call_kern_run; exact HK).
  erewrite bind_ok by (apply getattr_opt_run; exact Hpost).
  erewrite bind_raise by (rewrite Hdot; apply lift_run).
  now split.
Qed.


End Prediction.

Section Sampling.
Context {R : Type} `{!Scalar R}.

Lemma np_diag_flatten_column (v : ndarray R) (n : nat) :
  shape_of v = Sh2 n 1 ->
  np_diag (flatten v) = Ok (diagonal_covariance n v).
Proof.
  intros Ev. unfold np_diag, flatten, size, diagonal_covariance.
  rewrite Ev. cbn [shape_of shape_size]. rewrite Nat.mul_1_r. f_equal.
  apply tab2_ext. intros i j Hi Hj.
  destruct (i =? j); [|reflexivity].
  unfold get1, get2, item. rewrite Ev. cbn [data shape_cols].
  f_equal. lia.
Qed.

(** X14.  With [full_cov=False], under the shape conditions of the diagonal case,
    [posterior_samples_f] draws from the sampler once, with the flattened
    predictive mean and with the covariance that has the predictive
    variances on its diagonal and zeros elsewhere, and returns the
    transpose of what the sampler returns (or fails with the sampler's
    exception). *)
Theorem posterior_samples_f_uses_diagonal_covariance
    (st : state R) (Xnew Ks Kd : ndarray R) (post : Posterior R)
    (M N : nat) (s1 s2 : list R) (sz : Z) :
  K (kern (self st)) (kern_store (kern (self st))) Xnew (Some (X (self st)))
  = (Ok Ks, s1) ->
  shape_of Ks = Sh2 M N ->
  posterior (self st) = Some post ->
  shape_of (woodbury_inv post) = Sh2 N N ->
  ((exists P, shape_of (woodbury_vector post) = Sh2 N P)
   \/ shape_of (woodbury_vector post) = Sh1 N) ->
  Kdiag (kern (self st)) s1 Xnew = (Ok Kd, s2) ->
  shape_of Kd = Sh1 M ->
  fst (posterior_samples_f Xnew sz false st)
  = match fst (multivariate_normal (np_random st) (rng_state (np_random st))
                 (flatten (spec_mean M N Ks (woodbury_vector post)))
                 (diagonal_covariance M
                    (spec_var_diag M N Kd (woodbury_inv post) Ks))
                 sz) with
    | Ok drawn => Ok (transpose drawn)
    | Raise e => Raise e
    end.
Proof.
  intros HK HKs Hpost HWi Hwv HKd HKds.
  pose proof (raw_predict_diag_run st Xnew Ks post M N s1
                HK HKs Hpost HWi Hwv Kd s2 HKd HKds) as Hraw.
  assert (Hrng : preserves (fun z : state R => np_random z) (_raw_predict Xnew false))
    by (unfold _raw_predict; preserves_observation).
  specialize (Hrng st). cbn beta in Hrng.
  destruct (_raw_predict Xnew false st) as [o st2] eqn:E.
  cbn [fst snd] in Hraw, Hrng. subst o.
  unfold posterior_samples_f.
  erewrite bind_ok by exact E.
  cbv iota beta.
  change (ndim (spec_var_diag M N Kd (woodbury_inv post) Ks) =? 3) with false.
  cbv iota.
  erewrite bind_ok by reflexivity.
  cbn [negb]. cbv iota.
  erewrite bind_ok
    by (rewrite (np_diag_flatten_column _ M) by reflexivity; apply lift_run).
  unfold bind, call_multivariate_normal. rewrite Hrng.
  now destruct (multivariate_normal (np_random st) (rng_state (np_random st))
                  (flatten (spec_mean M N Ks (woodbury_vector post)))
                  (diagonal_covariance M
                     (spec_var_diag M N Kd (woodbury_inv post) Ks)) sz)
    as [[drawn | e] s'].
Qed.
End Sampling.

Section PersistenceFacts.
Context {R : Type} `{!Scalar R}.

Lemma pop_app {A} (l l' r : list A) (y : A) :
  pop l' = Some (y, r) -> pop (l ++ l') = Some (y, l ++ r).
Proof.
  intros E. induction l as [|x l IH]; [exact E|].
  cbn [app pop]. now rewrite IH.
Qed.

Lemma setstate_last_six (base : list (pyobj R)) (a b c d e f : pyobj R) :
  _setstate (base ++ [a; b; c; d; e; f])
  = (Ok tt,
     [("output_dim", f); ("likelihood", e); ("kern", d);
      ("input_dim", c); ("num_data", b); ("X", a)],
     Some base).
Proof.
  unfold _setstate, pop_attr. cbn [fst snd].
  rewrite (pop_app base [a; b; c; d; e; f] [a; b; c; d; e] f) by reflexivity.
  rewrite (pop_app base [a; b; c; d; e] [a; b; c; d] e) by reflexivity.
  rewrite (pop_app base [a; b; c; d] [a; b; c] d) by reflexivity.
  rewrite (pop_app base [a; b; c] [a; b] c) by reflexivity.
  rewrite (pop_app base [a; b] [a] b) by reflexivity.
  rewrite (pop_app base [a] [] a) by reflexivity.
  now rewrite app_nil_r.
Qed.

(** X15.  [_setstate] undoes [_getstate]: applied to the state list of a model,
    it assigns the model's own [output_dim], [likelihood], [kern],
    [input_dim], [num_data] and [X] back to the attributes of these names
    and hands the base class exactly the base class's part of the list.
    These six are the only attributes written: [Y], the stored metadata,
    the inference method and the cached results are not part of the
    state. *)
Theorem setstate_undoes_getstate (base : list (pyobj R)) (g : GP R) :
  _setstate (_getstate base g)
  = (Ok tt,
     [("output_dim", ObjInt (output_dim g));
      ("likelihood", ObjLikelihood (likelihood g));
      ("kern", ObjKern (kern g));
      ("input_dim", ObjInt (input_dim g));
      ("num_data", ObjInt (num_data g));
      ("X", ObjArray (X g))],
     Some base).
Proof. unfold _getstate. apply setstate_last_six. Qed.

(** X16.  On a state list with fewer than six entries [_setstate] fails with
    [IndexError] after assigning one attribute per entry it found, and the
    base class's [_setstate] is not reached. *)
Theorem setstate_of_short_list (l : list (pyobj R)) :
  length l < 6 ->
  fst (fst (_setstate l)) = Raise "IndexError"
  /\ length (snd (fst (_setstate l))) = length l
  /\ snd (_setstate l) = None.
Proof.
  intros Hl.
  destruct l as [|a [|b [|c [|d [|e [|f l]]]]]]; cbn in Hl; try lia;
    now repeat split.
Qed.
End PersistenceFacts.

Section MetadataRouting.
Context {R : Type} `{!Scalar R}.

(** C9. [predict], [predict_quantiles] and [posterior_samples] hand the
    likelihood's predictive, quantile or sampling routine the [Y_metadata]
    argument of the call ([None] when it is omitted): the result of each
    method, and the store the likelihood is left with, are those of that
    routine applied to the latent prediction (or samples) and to this
    argument.  It is the only likelihood call they make and their last
    call, they make no inference call, and their outcome does not depend
    on the metadata stored on the model.  The stored metadata is what
    [parameters_changed] hands to the inference routine, in the only
    inference call it makes: the outcome of that routine on the stored
    metadata decides whether [parameters_changed] fails and what it
    caches. *)
Theorem likelihood_metadata_is_the_argument
    (st : state R) (Xnew : ndarray R) (full_cov : bool) (q : list Q)
    (sz : Z) (md : option (metadata R)) (stored : metadata R) :
  (* what the likelihood receives *)
  predict Xnew full_cov md st
  = match _raw_predict Xnew full_cov st with
    | (Ok (mu, var), st1) =>
        let l := likelihood (self st1) in
        (match fst (predictive_values l (lik_store l) mu var full_cov md) with
         | Ok (mean, var') => Ok (mean, var')
         | Raise e => Raise e
         end,
         State (set_likelihood
                  (set_lik_store
                     (snd (predictive_values l (lik_store l) mu var full_cov md)) l)
                  (self st1))
               (calls st1 ++ [EvPredictiveValues mu var full_cov md])
               (np_random st1))
    | (Raise e, st1) => (Raise e, st1)
    end
  /\ predict_quantiles Xnew q md st
     = match _raw_predict Xnew false st with
       | (Ok (m, v), st1) =>
           let l := likelihood (self st1) in
           (fst (predictive_quantiles l (lik_store l) m v q md),
            State (set_likelihood
                     (set_lik_store
                        (snd (predictive_quantiles l (lik_store l) m v q md)) l)
                     (self st1))
                  (calls st1 ++ [EvPredictiveQuantiles m v q md])
                  (np_random st1))
       | (Raise e, st1) => (Raise e, st1)
       end
  /\ posterior_samples Xnew sz full_cov md st
     = match posterior_samples_f Xnew sz full_cov st with
       | (Ok Ysim, st1) =>
           let l := likelihood (self st1) in
           (fst (samples l (lik_store l) Ysim md),
            State (set_likelihood
                     (set_lik_store (snd (samples l (lik_store l) Ysim md)) l)
                     (self st1))
                  (calls st1 ++ [EvSamples Ysim md])
                  (np_random st1))
       | (Raise e, st1) => (Raise e, st1)
       end
  (* with the optional arguments omitted *)
  /\ predict_defaults Xnew st = predict Xnew false None st
  /\ predict_quantiles_defaults Xnew st
     = predict_quantiles Xnew [(5 # 2)%Q; (195 # 2)%Q] None st
  /\ posterior_samples_defaults Xnew st = posterior_samples Xnew 10%Z false None st
  (* the calls made *)
  /\ emits (routes md) (predict Xnew full_cov md)
  /\ emits (routes md) (predict_quantiles Xnew q md)
  /\ emits (routes md) (posterior_samples Xnew sz full_cov md)
  /\ emits (routes None) (predict_defaults Xnew)
  /\ emits (routes None) (predict_quantiles_defaults Xnew)
  /\ emits (routes None) (posterior_samples_defaults Xnew)
  (* the likelihood is called last, with the argument *)
  /\ match fst (predict Xnew full_cov md st) with
     | Ok _ => exists mu var,
         last (calls (snd (predict Xnew full_cov md st)))
         = Some (EvPredictiveValues mu var full_cov md)
     | Raise _ => True
     end
  /\ match fst (predict_quantiles Xnew q md st) with
     | Ok _ => exists mu var,
         last (calls (snd (predict_quantiles Xnew q md st)))
         = Some (EvPredictiveQuantiles mu var q md)
     | Raise _ => True
     end
  /\ match fst (posterior_samples Xnew sz full_cov md st) with
     | Ok _ => exists Ysim,
         last (calls (snd (posterior_samples Xnew sz full_cov md st)))
         = Some (EvSamples Ysim md)
     | Raise _ => True
     end
  (* the stored metadata is not consulted *)
  /\ fst (predict Xnew full_cov md (with_stored_metadata stored st))
     = fst (predict Xnew full_cov md st)
  /\ fst (predict_quantiles Xnew q md (with_stored_metadata stored st))
     = fst (predict_quantiles Xnew q md st)
  /\ fst (posterior_samples Xnew sz full_cov md (with_stored_metadata stored st))
     = fst (posterior_samples Xnew sz full_cov md st)
  (* except by the inference call of parameters_changed *)
  /\ match inference (inference_method (self st)) (kern (self st)) (X (self st))
             (likelihood (self st)) (Y (self st)) (Y_metadata (self st)) with
     | Ok (p, lml, gd) =>
         cache_part (self (snd (parameters_changed st)))
         = (Some p, Some lml, Some gd)
     | Raise e => fst (parameters_changed st) = Raise e
     end
  /\ exists rest,
       calls (snd (parameters_changed st))
       = calls st
         ++ EvInference (X (self st)) (Y (self st)) (Y_metadata (self st)) :: rest
       /\ Forall (fun e => is_inference_call e = false) rest.
Proof.
  repeat match goal with |- _ /\ _ => split end.
  - unfold predict, bind.
    destruct (_raw_predict Xnew full_cov st) as [[[mu var] | e] st1];
      [|reflexivity].
    unfold call_likelihood. cbv zeta.
    now destruct (predictive_values _ _ mu var full_cov md)
      as [[[mean var'] | e] s'].
  - unfold predict_quantiles, bind.
    destruct (_raw_predict Xnew false st) as [[[m v] | e] st1]; [|reflexivity].
    unfold call_likelihood. cbv zeta.
    now destruct (predictive_quantiles _ _ m v q md) as [o s'].
  - unfold posterior_samples, bind.
    destruct (posterior_samples_f Xnew sz full_cov st) as [[Ysim | e] st1];
      [|reflexivity].
    unfold call_likelihood. cbv zeta.
    now destruct (samples _ _ Ysim md) as [o s'].
  - reflexivity.
  - reflexivity.
  - reflexivity.
  - apply predict_routes.
  - apply predict_quantiles_routes.
  - apply posterior_samples_routes.
  - apply predict_routes.
  - apply predict_quantiles_routes.
  - apply posterior_samples_routes.
  - unfold predict, bind.
    destruct (_raw_predict Xnew full_cov st) as [[[mu var] | e] st1]; [|exact I].
    unfold call_likelihood.
    destruct (predictive_values _ _ mu var full_cov md) as [[[mean var'] | e] s'];
      [|exact I].
    cbn. exists mu, var. apply last_snoc.
  - unfold predict_quantiles, bind.
    destruct (_raw_predict Xnew false st) as [[[mu var] | e] st1]; [|exact I].
    unfold call_likelihood.
    destruct (predictive_quantiles _ _ mu var q md) as [[l | e] s']; [|exact I].
    cbn. exists mu, var. apply last_snoc.
  - unfold posterior_samples, bind.
    destruct (posterior_samples_f Xnew sz full_cov st) as [[Ysim | e] st1];
      [|exact I].
    unfold call_likelihood.
    destruct (samples _ _ Ysim md) as [[l | e] s']; [|exact I].
    cbn. exists Ysim. apply last_snoc.
  - now rewrite predict_metadata.
  - now rewrite predict_quantiles_metadata.
  - now rewrite posterior_samples_metadata.
  - destruct (inference (inference_method (self st)) (kern (self st))
                (X (self st)) (likelihood (self st)) (Y (self st))
                (Y_metadata (self st))) as [[[p lml] gd] | e] eqn:Hinf.
    + unfold parameters_changed.
      do 7 (erewrite bind_ok by reflexivity).
      erewrite bind_ok by (rewrite Hinf; apply lift_run).
      cbv iota beta.
      erewrite bind_ok by reflexivity.
      match goal with
      | |- context [snd (?m ?s)] =>
          assert (Hrest : preserves (fun z : state R => cache_part (self z)) m)
            by preserves_observation;
          rewrite (Hrest s)
      end.
      reflexivity.
    + unfold parameters_changed.
      do 7 (erewrite bind_ok by reflexivity).
      erewrite bind_raise by (rewrite Hinf; apply lift_run).
      reflexivity.
  - unfold parameters_changed.
    do 6 (erewrite bind_ok by reflexivity).
    erewrite bind_ok by reflexivity.
    match goal with
    | |- context [snd (?m ?s)] =>
        assert (Hrest : emits (fun e => is_inference_call e = false) m)
          by emits_only_queries;
        destruct (Hrest s) as [rest [E F]]
    end.
    exists rest. split; [|exact F].
    rewrite E. cbn [calls]. now rewrite <- app_assoc.
Qed.
End MetadataRouting.

(** * The further properties on the concrete models *)

Lemma constructed_model_attributes_witness :
  __init__ (fixed_inference 1) (fixed_inference 1) X1 Y1 (linear_kern 1)
    gaussian_likelihood (Some (fixed_method 1)) "gp" None
  = (Ok (model1 1), [])
  /\ (shapes_consistent (model1 1)
      /\ arr (X (model1 1)) = arr X1
      /\ arr (Y (model1 1)) = arr Y1
      /\ arr_class (X (model1 1))
         = (if is_observable X1 then arr_class X1 else ObservableArray)
      /\ arr_class (Y (model1 1)) = ObservableArray
      /\ Y_metadata (model1 1) = or_empty None
      /\ kern (model1 1) = linear_kern 1
      /\ likelihood (model1 1) = gaussian_likelihood
      /\ name (model1 1) = "gp"
      /\ parameters (model1 1) = [ParamKern; ParamLikelihood]
      /\ cache_part (model1 1) = (None, None, None)
      /\ (forall i, Some (fixed_method 1) = Some i ->
          inference_method (model1 1) = i /\ @nil (event Z) = [])).
Proof.
  split; [reflexivity|].
  exact (constructed_model_attributes (fixed_inference 1) (fixed_inference 1)
           X1 Y1 (linear_kern 1) gaussian_likelihood (Some (fixed_method 1))
           "gp" None (model1 1) [] eq_refl).
Defined.

(** An input that is already a [VariationalPosterior] is stored as it is. *)
Example variational_input_is_kept :
  match fst (__init__ (fixed_inference 1) (fixed_inference 1)
               (PyArray VariationalPosterior (mat 1 1 [1%Z])) Y1 (linear_kern 1)
               gaussian_likelihood None "gp" None) with
  | Ok g => X g = PyArray VariationalPosterior (mat 1 1 [1%Z])
  | Raise _ => False
  end.
Proof. reflexivity. Qed.

Lemma parameters_changed_stores_and_forwards_witness :
  inference (inference_method (self (stale1 1))) (kern (self (stale1 1)))
    (X (self (stale1 1))) (likelihood (self (stale1 1))) (Y (self (stale1 1)))
    (Y_metadata (self (stale1 1)))
  = Ok (posterior1 1, 0%Z, gradients1)
  /\ gradients1 !! "dL_dthetaL" = Some (vec [0%Z])
  /\ gradients1 !! "dL_dK" = Some (mat 1 1 [0%Z])
  /\ update_gradients (likelihood (self (stale1 1)))
       (lik_store (likelihood (self (stale1 1)))) (vec [0%Z]) = (Ok tt, [0%Z])
  /\ update_gradients_full (kern (self (stale1 1)))
       (kern_store (kern (self (stale1 1)))) (mat 1 1 [0%Z]) (X (self (stale1 1)))
     = (Ok tt, [0%Z])
  /\ (parameters_changed (stale1 1)
      = (Ok tt,
         State (set_kern (set_kern_store [0%Z] (kern (self (stale1 1))))
                  (set_likelihood
                     (set_lik_store [0%Z] (likelihood (self (stale1 1))))
                     (set_inferred (posterior1 1) 0%Z gradients1
                        (self (stale1 1)))))
               (calls (stale1 1)
                ++ [EvInference (X (self (stale1 1))) (Y (self (stale1 1)))
                      (Y_metadata (self (stale1 1)));
                    EvLikUpdateGradients (vec [0%Z]);
                    EvKernUpdateGradients (mat 1 1 [0%Z]) (X (self (stale1 1)))])
               (np_random (stale1 1)))
      /\ fst (log_likelihood (snd (parameters_changed (stale1 1)))) = Ok 0%Z).
Proof.
  assert (H1 : gradients1 !! "dL_dthetaL" = Some (vec [0%Z]))
    by (vm_compute; reflexivity).
  assert (H2 : gradients1 !! "dL_dK" = Some (mat 1 1 [0%Z]))
    by (vm_compute; reflexivity).
  split; [reflexivity|]. split; [exact H1|]. split; [exact H2|].
  split; [reflexivity|]. split; [reflexivity|].
  exact (parameters_changed_stores_and_forwards (stale1 1) (posterior1 1) 0%Z
           gradients1 (vec [0%Z]) (mat 1 1 [0%Z]) [0%Z] [0%Z]
           eq_refl H1 H2 eq_refl eq_refl).
Defined.

Lemma parameters_changed_inference_fails_witness :
  inference (inference_method (self (stale_with failing_method)))
    (kern (self (stale_with failing_method)))
    (X (self (stale_with failing_method)))
    (likelihood (self (stale_with failing_method)))
    (Y (self (stale_with failing_method)))
    (Y_metadata (self (stale_with failing_method)))
  = Raise "LinAlgError"
  /\ parameters_changed (stale_with failing_method)
     = (Raise "LinAlgError",
        State (self (stale_with failing_method))
              (calls (stale_with failing_method)
               ++ [EvInference (X (self (stale_with failing_method)))
                     (Y (self (stale_with failing_method)))
                     (Y_metadata (self (stale_with failing_method)))])
              (np_random (stale_with failing_method))).
Proof.
  split; [reflexivity|].
  exact (parameters_changed_inference_fails (stale_with failing_method)
           "LinAlgError" eq_refl).
Defined.

Lemma parameters_changed_replaces_cache_first_witness :
  inference (inference_method (self (stale_with (method_with_gradients ∅))))
    (kern (self (stale_with (method_with_gradients ∅))))
    (X (self (stale_with (method_with_gradients ∅))))
    (likelihood (self (stale_with (method_with_gradients ∅))))
    (Y (self (stale_with (method_with_gradients ∅))))
    (Y_metadata (self (stale_with (method_with_gradients ∅))))
  = Ok (posterior1 1, 0%Z, ∅)
  /\ cache_part
       (self (snd (parameters_changed (stale_with (method_with_gradients ∅)))))
     = (Some (posterior1 1), Some 0%Z, Some ∅).
Proof.
  split; [reflexivity|].
  exact (parameters_changed_replaces_cache_first
           (stale_with (method_with_gradients ∅)) (posterior1 1) 0%Z ∅ eq_refl).
Defined.

Lemma parameters_changed_without_likelihood_gradient_witness :
  inference (inference_method (self (stale_with (method_with_gradients ∅))))
    (kern (self (stale_with (method_with_gradients ∅))))
    (X (self (stale_with (method_with_gradients ∅))))
    (likelihood (self (stale_with (method_with_gradients ∅))))
    (Y (self (stale_with (method_with_gradients ∅))))
    (Y_metadata (self (stale_with (method_with_gradients ∅))))
  = Ok (posterior1 1, 0%Z, ∅)
  /\ (∅ : gmap string (ndarray Z)) !! "dL_dthetaL" = None
  /\ parameters_changed (stale_with (method_with_gradients ∅))
     = (Raise KeyError,
        State (set_inferred (posterior1 1) 0%Z ∅
                 (self (stale_with (method_with_gradients ∅))))
              (calls (stale_with (method_with_gradients ∅))
               ++ [EvInference
                     (X (self (stale_with (method_with_gradients ∅))))
                     (Y (self (stale_with (method_with_gradients ∅))))
                     (Y_metadata (self (stale_with (method_with_gradients ∅))))])
              (np_random (stale_with (method_with_gradients ∅)))).
Proof.
  split; [reflexivity|]. split; [reflexivity|].
  exact (parameters_changed_without_likelihood_gradient
           (stale_with (method_with_gradients ∅)) (posterior1 1) 0%Z ∅
           eq_refl eq_refl).
Defined.

Lemma parameters_changed_without_kernel_gradient_witness :
  inference
    (inference_method
       (self (stale_with (method_with_gradients likelihood_gradient_only))))
    (kern (self (stale_with (method_with_gradients likelihood_gradient_only))))
    (X (self (stale_with (method_with_gradients likelihood_gradient_only))))
    (likelihood
       (self (stale_with (method_with_gradients likelihood_gradient_only))))
    (Y (self (stale_with (method_with_gradients likelihood_gradient_only))))
    (Y_metadata
       (self (stale_with (method_with_gradients likelihood_gradient_only))))
  = Ok (posterior1 1, 0%Z, likelihood_gradient_only)
  /\ likelihood_gradient_only !! "dL_dthetaL" = Some (vec [0%Z])
  /\ update_gradients
       (likelihood
          (self (stale_with (method_with_gradients likelihood_gradient_only))))
       (lik_store
          (likelihood
             (self (stale_with (method_with_gradients likelihood_gradient_only)))))
       (vec [0%Z])
     = (Ok tt, [0%Z])
  /\ likelihood_gradient_only !! "dL_dK" = None
  /\ parameters_changed
       (stale_with (method_with_gradients likelihood_gradient_only))
     = (Raise KeyError,
        State (set_likelihood
                 (set_lik_store [0%Z]
                    (likelihood
                       (self (stale_with
                                (method_with_gradients likelihood_gradient_only)))))
                 (set_inferred (posterior1 1) 0%Z likelihood_gradient_only
                    (self (stale_with
                             (method_with_gradients likelihood_gradient_only)))))
              (calls (stale_with (method_with_gradients likelihood_gradient_only))
               ++ [EvInference
                     (X (self (stale_with
                                 (method_with_gradients likelihood_gradient_only))))
                     (Y (self (stale_with
                                 (method_with_gradients likelihood_gradient_only))))
                     (Y_metadata
                        (self (stale_with
                                 (method_with_gradients likelihood_gradient_only))));
                   EvLikUpdateGradients (vec [0%Z])])
              (np_random
                 (stale_with (method_with_gradients likelihood_gradient_only)))).
Proof.
  assert (H1 : likelihood_gradient_only !! "dL_dthetaL" = Some (vec [0%Z]))
    by (vm_compute; reflexivity).
  assert (H2 : likelihood_gradient_only !! "dL_dK" = None)
    by (vm_compute; reflexivity).
  split; [reflexivity|]. split; [exact H1|]. split; [reflexivity|].
  split; [exact H2|].
  exact (parameters_changed_without_kernel_gradient
           (stale_with (method_with_gradients likelihood_gradient_only))
           (posterior1 1) 0%Z likelihood_gradient_only (vec [0%Z]) [0%Z]
           eq_refl H1 eq_refl H2).
Defined.


Lemma prediction_before_inference_witness :
  posterior (self (stale1 1)) = None
  /\ (let failure :=
        match fst (K (kern (self (stale1 1))) (kern_store (kern (self (stale1 1))))
                     Xnew2 (Some (X (self (stale1 1))))) with
        | Ok _ => AttributeError
        | Raise e => e
        end in
      let asked := calls (stale1 1) ++ [EvK Xnew2 (Some (X (self (stale1 1))))] in
      (fst (_raw_predict Xnew2 false (stale1 1)) = Raise failure
       /\ calls (snd (_raw_predict Xnew2 false (stale1 1))) = asked)
      /\ (fst (predict Xnew2 false None (stale1 1)) = Raise failure
          /\ calls (snd (predict Xnew2 false None (stale1 1))) = asked)
      /\ (fst (predict_quantiles Xnew2 [(5 # 2)%Q] None (stale1 1)) = Raise failure
          /\ calls (snd (predict_quantiles Xnew2 [(5 # 2)%Q] None (stale1 1)))
             = asked)
      /\ (fst (posterior_samples_f Xnew2 3 false (stale1 1)) = Raise failure
          /\ calls (snd (posterior_samples_f Xnew2 3 false (stale1 1))) = asked)
      /\ (fst (posterior_samples Xnew2 3 false None (stale1 1)) = Raise failure
          /\ calls (snd (posterior_samples Xnew2 3 false None (stale1 1)))
             = asked)).
Proof.
  split; [reflexivity|].
  exact (prediction_before_inference (stale1 1) Xnew2 false [(5 # 2)%Q] 3 None
           eq_refl).
Defined.

(** On that model the failure is the [AttributeError]. *)
Example prediction_before_inference_error :
  fst (predict Xnew2 false None (stale1 1)) = Raise "AttributeError".
Proof. reflexivity. Qed.

Lemma prediction_with_outdated_posterior_witness :
  K (kern (self outdated_state)) (kern_store (kern (self outdated_state))) Xnew2
    (Some (X (self outdated_state))) = (Ok Ks2, [])
  /\ shape_of Ks2 = Sh2 2 1
  /\ posterior (self outdated_state) = Some posterior_of_two
  /\ shape_of (woodbury_inv posterior_of_two) = Sh2 2 2
  /\ 2 <> 1
  /\ fst (_raw_predict Xnew2 true outdated_state) = Raise ValueError
  /\ calls (snd (_raw_predict Xnew2 true outdated_state))
     = calls outdated_state ++ [EvK Xnew2 (Some (X (self outdated_state)))].
Proof.
  assert (Hne : 2 <> 1) by lia.
  split; [reflexivity|]. split; [reflexivity|]. split; [reflexivity|].
  split; [reflexivity|]. split; [exact Hne|].
  exact (prediction_with_outdated_posterior outdated_state Xnew2 Ks2
           posterior_of_two 2 1 2 2 [] true eq_refl eq_refl eq_refl eq_refl Hne).
Defined.


Lemma posterior_samples_f_uses_diagonal_covariance_witness :
  K (kern (self (fresh1 2))) (kern_store (kern (self (fresh1 2)))) Xnew2
    (Some (X (self (fresh1 2)))) = (Ok Ks2, [0%Z])
  /\ shape_of Ks2 = Sh2 2 1
  /\ posterior (self (fresh1 2)) = Some (posterior1 2)
  /\ shape_of (woodbury_inv (posterior1 2)) = Sh2 1 1
  /\ ((exists P, shape_of (woodbury_vector (posterior1 2)) = Sh2 1 P)
      \/ shape_of (woodbury_vector (posterior1 2)) = Sh1 1)
  /\ Kdiag (kern (self (fresh1 2))) [0%Z] Xnew2 = (Ok Kd2, [0%Z])
  /\ shape_of Kd2 = Sh1 2
  /\ fst (posterior_samples_f Xnew2 3 false (fresh1 2))
     = match fst (multivariate_normal (np_random (fresh1 2))
                    (rng_state (np_random (fresh1 2)))
                    (flatten (spec_mean 2 1 Ks2 (woodbury_vector (posterior1 2))))
                    (diagonal_covariance 2
                       (spec_var_diag 2 1 Kd2 (woodbury_inv (posterior1 2)) Ks2))
                    3) with
       | Ok drawn => Ok (transpose drawn)
       | Raise e => Raise e
       end.
Proof.
  assert (Hwv : (exists P, shape_of (woodbury_vector (posterior1 2)) = Sh2 1 P)
                \/ shape_of (woodbury_vector (posterior1 2)) = Sh1 1)
    by (left; exists 1; reflexivity).
  split; [reflexivity|]. split; [reflexivity|]. split; [reflexivity|].
  split; [reflexivity|]. split; [exact Hwv|]. split; [reflexivity|].
  split; [reflexivity|].
  exact (posterior_samples_f_uses_diagonal_covariance (fresh1 2) Xnew2 Ks2 Kd2
           (posterior1 2) 2 1 [0%Z] [0%Z] 3 eq_refl eq_refl eq_refl eq_refl
           Hwv eq_refl eq_refl).
Defined.

(** The covariance handed to the sampler on that model. *)
Example diagonal_covariance_value :
  diagonal_covariance 2 (spec_var_diag 2 1 Kd2 (woodbury_inv (posterior1 2)) Ks2)
  = mat 2 2 [-4; 0; 0; -9]%Z.
Proof. reflexivity. Qed.

Lemma setstate_of_short_list_witness :
  length base_state1 < 6
  /\ fst (fst (_setstate base_state1)) = Raise "IndexError"
  /\ length (snd (fst (_setstate base_state1))) = length base_state1
  /\ snd (_setstate base_state1) = None.
Proof.
  assert (Hl : length base_state1 < 6) by (cbn; lia).
  split; [exact Hl|].
  exact (setstate_of_short_list base_state1 Hl).
Defined.

(** The state list of the constructed model and what [_setstate] makes of
    it. *)
Example getstate_of_model1 :
  _getstate base_state1 (model1 1)
  = [ObjOther "name"; ObjOther "priors";
     ObjArray (X (model1 1)); ObjInt 1; ObjInt 1;
     ObjKern (linear_kern 1); ObjLikelihood gaussian_likelihood; ObjInt 1].
Proof. reflexivity. Qed.


(** On the model whose likelihood answers with the metadata it receives,
    the answer follows the argument of the call: the caller's dictionary,
    or nothing when the argument is omitted; the dictionary stored on the
    model shows in none of them. *)
Example likelihood_receives_the_argument :
  fst (predict Xnew2 false (Some censored) censoring_state)
  = Ok (mat 2 1 [4; 6]%Z, vec [1%Z])
  /\ fst (predict_defaults Xnew2 censoring_state)
     = Ok (mat 2 1 [4; 6]%Z, mat 2 1 [0; 0]%Z)
  /\ fst (predict_quantiles Xnew2 [(5 # 2)%Q] (Some censored) censoring_state)
     = Ok [vec [1%Z]]
  /\ fst (predict_quantiles_defaults Xnew2 censoring_state)
     = Ok [mat 2 1 [0; 0]%Z]
  /\ fst (posterior_samples Xnew2 3 false (Some censored) censoring_state)
     = Ok (vec [1%Z])
  /\ fst (posterior_samples Xnew2 3 false None censoring_state)
     = Ok (mat 2 3 [4; 4; 4; 6; 6; 6]%Z).
Proof. repeat split; vm_compute; reflexivity. Qed.
